(** * FileUploaderDropContainer: file classification and drag state

    A shallow embedding of
    [packages/react/src/components/FileUploader/FileUploaderDropContainer.tsx]:
    the [validateFiles] reducer with its in-place annotation of [File]
    objects, and the event handlers of the rendered component. *)

From Stdlib Require Import Ascii String.
From stdpp Require Import base strings list gmap.

Local Open Scope string_scope.
Local Open Scope nat_scope.
Local Open Scope list_scope.

(** ** JavaScript strings

    A string is a sequence of code units; the model covers the code units
    below 256 (one [ascii] each, read as Latin-1). *)

Definition code (c : ascii) : nat := nat_of_ascii c.

Definition between (lo hi n : nat) : bool := (lo <=? n) && (n <=? hi).

(** [String.prototype.toLowerCase] on these code units: [A-Z] and the
    Latin-1 capitals U+00C0..U+00DE (without the multiplication sign
    U+00D7) move up by 32, every other code unit stays. *)
Definition lower_char (c : ascii) : ascii :=
  let n := code c in
  if between 65 90 n || (between 192 222 n && negb (n =? 215))
  then ascii_of_nat (n + 32)
  else c.

Fixpoint toLowerCase (s : string) : string :=
  match s with
  | EmptyString => EmptyString
  | String c s' => String (lower_char c) (toLowerCase s')
  end.

(** ** Regular expressions

    [validateFiles] uses a regular expression through [test] and through
    [String.prototype.match] only, and builds it without the [g] and [y]
    flags, so both calls search from index 0 and agree: the expression is
    the function from a subject to its leftmost match, if any. *)

Record RegExp := { exec : string → option string }.

Definition test (re : RegExp) (s : string) : bool :=
  match exec re s with Some _ => true | None => false end.

(** [s.match(re)] for a non-global [re]: [null], or an array whose first
    element is the matched substring. *)
Definition String_match (s : string) (re : RegExp) : option string := exec re s.

(** The default value of the [pattern] prop, compiled with flag [i]:
    [.[0-9a-z]+$]. The dot is not escaped: it stands for any code unit
    but a line terminator. With [i] the class [[0-9a-z]] is [[0-9A-Za-z]]
    (no code unit above 127 folds into ASCII), and [$] is the end of the
    subject since there is no [m] flag. *)
Definition is_line_terminator (c : ascii) : bool :=
  (code c =? 10) || (code c =? 13).

Definition is_0_9a_z_i (c : ascii) : bool :=
  let n := code c in
  between 48 57 n || between 65 90 n || between 97 122 n.

Fixpoint all_chars (p : ascii → bool) (s : string) : bool :=
  match s with
  | EmptyString => true
  | String c s' => p c && all_chars p s'
  end.

(** Does [.[0-9a-z]+$] match when the dot is put on the head of [s]? *)
Definition matches_here (s : string) : bool :=
  match s with
  | EmptyString => false
  | String c rest =>
      negb (is_line_terminator c)
      && negb (String.eqb rest EmptyString)
      && all_chars is_0_9a_z_i rest
  end.

(** Leftmost match: the first suffix of the subject on which the
    expression matches; the match then runs to the end of the subject. *)
Fixpoint default_exec (s : string) : option string :=
  if matches_here s then Some s
  else match s with
       | EmptyString => None
       | String _ rest => default_exec rest
       end.

Definition defaultRegExp : RegExp := {| exec := default_exec |}.

(** ** File objects and the heap *)

Module File.
(** [type] is [None] when the property is [undefined] (the destructuring
    default [''] then applies); [invalidFileType] is [None] while the
    property has not been set. *)
Record t := mk {
  name : string;
  type : option string;
  invalidFileType : option bool;
}.

(** [curr.invalidFileType = true] *)
Definition set_invalidFileType (f : t) : t :=
  {| name := name f; type := type f; invalidFileType := Some true |}.
End File.

(** Arrays hold references to [File] objects. A reference with no object
    behind it stands for an [undefined] array element. *)
Definition loc := nat.
Abbreviation Heap := (gmap loc File.t).

(** ** Computations that mutate the heap and may throw *)

Inductive Exception := SyntaxError | TypeError.

Definition JS (A : Type) : Type := Heap → (Exception + A) * Heap.

Definition ret {A} (a : A) : JS A := λ h, (inr a, h).
Definition throw {A} (e : Exception) : JS A := λ h, (inl e, h).
Definition bind {A B} (m : JS A) (k : A → JS B) : JS B :=
  λ h, match m h with
       | (inr a, h') => k a h'
       | (inl e, h') => (inl e, h')
       end.

#[global] Instance JS_ret : MRet JS := @ret.
#[global] Instance JS_bind : MBind JS := λ A B k m, bind m k.

(** Reading the properties of [curr]; destructuring [undefined] throws. *)
Definition deref (l : loc) : JS File.t :=
  λ h, match h !! l with
       | Some f => (inr f, h)
       | None => (inl TypeError, h)
       end.

Definition mark_invalid (l : loc) : JS unit :=
  λ h, (inr (), alter File.set_invalidFileType l h).

(** [Array.prototype.reduce] with an initial value. *)
Fixpoint reduce {A B} (f : B → A → JS B) (l : list A) (acc : B) : JS B :=
  match l with
  | [] => ret acc
  | x :: l' => acc' ← f acc x; reduce f l' acc'
  end.

(** ** Props and events *)

Record Props := {
  accept : list string;
  disabled : bool;
  pattern : string;
}.

Definition defaultProps : Props :=
  {| accept := []; disabled := false; pattern := ".[0-9a-z]+$" |}.

Module Event.
Record t := mk {
  type : string;
  dataTransfer_files : list loc;
  target_files : list loc;
}.
End Event.

(** The [drop] event of the [div] and the [change] event of the [input],
    as far as [validateFiles] reads them. *)
Definition drop_of (files : list loc) : Event.t := Event.mk "drop" files [].
Definition change_of (files : list loc) : Event.t := Event.mk "change" [] files.

(** ** validateFiles *)

Definition transferredFiles (event : Event.t) : list loc :=
  if String.eqb (Event.type event) "drop"
  then Event.dataTransfer_files event
  else Event.target_files event.

(** [acceptedTypes.has(x)] *)
Definition has (acceptedTypes : gset string) (x : string) : bool :=
  bool_decide (x ∈ acceptedTypes).

Section validateFiles.
(** [new RegExp(pattern, 'i')] of the host; [None] is a [SyntaxError]. *)
Variable newRegExp : string → option RegExp.
Variable props : Props.

Definition new_RegExp (p : string) : JS RegExp :=
  match newRegExp p with
  | Some re => ret re
  | None => throw SyntaxError
  end.

(** The callback handed to [reduce]. *)
Definition validate_step (acceptedTypes : gset string)
    (acc : list loc) (curr : loc) : JS (list loc) :=
  f ← deref curr;
  let name := File.name f in
  let mimeType := default "" (File.type f) in
  fileExtensionRegExp ← new_RegExp (pattern props);
  let hasFileExtension := test fileExtensionRegExp name in
  if negb hasFileExtension then ret acc
  else
    match String_match name fileExtensionRegExp with
    | None => throw TypeError
    | Some fileExtension =>
        if has acceptedTypes mimeType
           || has acceptedTypes (toLowerCase fileExtension)
        then ret (acc ++ [curr])
        else (mark_invalid curr;; ret (acc ++ [curr]))
    end.

Definition validateFiles (event : Event.t) : JS (list loc) :=
  if length (accept props) =? 0 then ret (transferredFiles event)
  else
    let acceptedTypes : gset string := list_to_set (accept props) in
    reduce (validate_step acceptedTypes) (transferredFiles event) [].
End validateFiles.

(** ** The component

    [isActive] is the [useState] flag, [input_value] the stored value of
    the file input, [heap] the [File] objects the events refer to. *)

Record State := {
  isActive : bool;
  input_value : string;
  heap : Heap;
}.

Definition initial (h : Heap) : State :=
  {| isActive := false; input_value := ""; heap := h |}.

Definition setActive (b : bool) (s : State) : State :=
  {| isActive := b; input_value := input_value s; heap := heap s |}.

Definition set_value (v : string) (s : State) : State :=
  {| isActive := isActive s; input_value := v; heap := heap s |}.

Definition set_heap (h : Heap) (s : State) : State :=
  {| isActive := isActive s; input_value := input_value s; heap := h |}.

(** Modelled from the spec: [keys] and [matches] of [internal/keyboard],
    which is not among the sources; the spec names the two activation
    keys, Enter and Space. *)
Inductive Key := Enter | Space | OtherKey (key : string).

Definition matches (k : Key) (keysToMatch : list Key) : bool :=
  existsb (λ k', match k, k' with
                 | Enter, Enter | Space, Space => true
                 | OtherKey a, OtherKey b => String.eqb a b
                 | _, _ => false
                 end) keysToMatch.

(** What a handler does to the outside: methods of the event, the
    callback props, the call of [click()] on the input behind [inputRef],
    or an exception that leaves the handler. [show_picker] is what the
    browser does once a click event has reached the input: it opens the
    file picker. *)
Inductive Call :=
  | stopPropagation
  | preventDefault
  | set_dropEffect (effect : string)
  | onAddFiles (event : Event.t) (addedFiles : list loc)
  | onClick
  | inputRef_click
  | show_picker
  | uncaught (e : Exception).

(** The events React delivers to the handlers of the [div], of the
    [button] and of the [input]. There is no [onDragEnter] handler. *)
Inductive DomEvent :=
  | DragEnter
  | DragOver
  | DragLeave
  | Drop (files : list loc)
  | KeyDown (k : Key)
  | Click
  | InputClick
  | InputChange (files : list loc).

Section Component.
Variable newRegExp : string → option RegExp.
Variable props : Props.

Definition handleChange (event : Event.t) (s : State) : State * list Call :=
  match validateFiles newRegExp props event (heap s) with
  | (inr addedFiles, h) => (set_heap h s, [onAddFiles event addedFiles])
  | (inl e, h) => (set_heap h s, [uncaught e])
  end.

(** The [onClick] of the [input] (lines 216-218):
    [evt.target.value = null]. *)
Definition input_onClick (s : State) : State := set_value "" s.

(** A click event at the [input]. The input is rendered with
    [disabled={disabled}] (line 211), and a disabled form control gets no
    click event, neither from the user nor from [click()]: nothing
    happens. Otherwise its [onClick] runs and the browser opens the file
    picker. *)
Definition input_click (s : State) : State * list Call :=
  if disabled props then (s, [])
  else (input_onClick s, [show_picker]).

(** [inputRef.current?.click()]: the call, and the click event it makes
    at the input. *)
Definition inputRef_current_click (s : State) : State * list Call :=
  let '(s', calls) := input_click s in
  (s', inputRef_click :: calls).

Definition handleClick (s : State) : State * list Call :=
  if negb (disabled props) then inputRef_current_click s else (s, []).

(** Modelled from the spec: [composeEventHandlers] of [tools/events],
    which is not among the sources; the [onClick] prop is invoked before
    the click-to-open behaviour, and both run. *)
Definition composeEventHandlers
    (handlers : list (State → State * list Call)) (s : State)
    : State * list Call :=
  foldl (λ acc handler,
           let '(s', calls) := handler acc.1 in (s', acc.2 ++ calls))
        (s, []) handlers.

Definition handle (s : State) (e : DomEvent) : State * list Call :=
  match e with
  | DragEnter => (s, [])
  | DragOver =>
      if disabled props then (s, [stopPropagation; preventDefault])
      else (setActive true s,
            [stopPropagation; preventDefault; set_dropEffect "copy"])
  | DragLeave =>
      if disabled props then (s, [stopPropagation; preventDefault])
      else (setActive false s,
            [stopPropagation; preventDefault; set_dropEffect "move"])
  | Drop files =>
      if disabled props then (s, [stopPropagation; preventDefault])
      else
        let '(s', calls) :=
          handleChange (drop_of files) (setActive false s) in
        (s', [stopPropagation; preventDefault] ++ calls)
  | KeyDown k =>
      if matches k [Enter; Space] then
        let '(s', calls) := inputRef_current_click s in
        (s', preventDefault :: calls)
      else (s, [])
  | Click => composeEventHandlers [λ s', (s', [onClick]); handleClick] s
  | InputClick => input_click s
  | InputChange files => handleChange (change_of files) s
  end.
End Component.

(** A session: the events in order, each with the props of the render
    whose handlers receive it. *)
Fixpoint run (newRegExp : string → option RegExp)
    (evs : list (Props * DomEvent)) (s : State) : State * list Call :=
  match evs with
  | [] => (s, [])
  | (p, e) :: evs' =>
      let '(s1, c1) := handle newRegExp p s e in
      let '(s2, c2) := run newRegExp evs' s1 in
      (s2, c1 ++ c2)
  end.

(** The add-files callbacks among some calls, by their [addedFiles]. *)
Fixpoint added (calls : list Call) : list (list loc) :=
  match calls with
  | [] => []
  | onAddFiles _ fs :: cs => fs :: added cs
  | _ :: cs => added cs
  end.

(** The browser side of the file input: the user picks the selection
    [path] (with [File] objects [files]) in the native picker. The change
    notification is withheld when [path] is the value the input already
    stores; otherwise the value is stored and [change] is dispatched. *)
Definition native_pick (newRegExp : string → option RegExp) (p : Props)
    (path : string) (files : list loc) (s : State) : State * list Call :=
  if String.eqb (input_value s) path then (s, [])
  else handle newRegExp p (set_value path s) (InputChange files).

(** ** The classification, file by file

    What the spec calls [classify], on one record: the verdict depends on
    the name and the MIME type alone. *)

Inductive Verdict := Excluded | Accepted | Invalid.

Definition verdict (re : RegExp) (acceptList : list string) (f : File.t)
    : Verdict :=
  match exec re (File.name f) with
  | None => Excluded
  | Some ext =>
      if bool_decide (default "" (File.type f) ∈ acceptList)
         || bool_decide (toLowerCase ext ∈ acceptList)
      then Accepted
      else Invalid
  end.

Definition is_kept (v : Verdict) : bool :=
  match v with Excluded => false | _ => true end.

Definition is_invalid (v : Verdict) : bool :=
  match v with Invalid => true | _ => false end.

(** Is the file behind [l] kept? *)
Definition keeps (re : RegExp) (acceptList : list string) (h : Heap)
    (l : loc) : bool :=
  match h !! l with
  | Some f => is_kept (verdict re acceptList f)
  | None => false
  end.

(** The heap after classification of [files]: the records found invalid
    are annotated, every other record is as it was. *)
Definition annotate (re : RegExp) (acceptList : list string)
    (files : list loc) (h : Heap) : Heap :=
  map_imap (λ l f,
    Some (if bool_decide (l ∈ files) && is_invalid (verdict re acceptList f)
          then File.set_invalidFileType f
          else f)) h.

(** [classify] of the spec: nothing is done for an empty accept-list;
    otherwise the files with a verdict other than [Excluded] are kept, in
    order, and the invalid ones are annotated. *)
Definition classify (re : RegExp) (acceptList : list string)
    (files : list loc) (h : Heap) : list loc * Heap :=
  if bool_decide (acceptList = []) then (files, h)
  else (filter (λ l, keeps re acceptList h l = true) files,
        annotate re acceptList files h).

(** No [undefined] among the array elements. *)
Definition all_defined (h : Heap) (files : list loc) : Prop :=
  Forall (λ l, is_Some (h !! l)) files.

(** How often [l] is listed. *)
Definition occurrences (l : loc) (files : list loc) : nat :=
  length (filter (λ x, x = l) files).

(** ** Observations on a handler's calls *)

Definition is_drag_event (e : DomEvent) : bool :=
  match e with
  | DragEnter | DragOver | DragLeave | Drop _ => true
  | _ => false
  end.

(** The callback props among some calls. *)
Definition is_callback (c : Call) : bool :=
  match c with
  | onAddFiles _ _ | onClick => true
  | _ => false
  end.

Definition callbacks (calls : list Call) : list Call :=
  List.filter is_callback calls.

(** What [handleChange] hands to [onAddFiles] for [event]: the classified
    list, once, when [validateFiles] returns. *)
Definition classified (newRegExp : string → option RegExp) (props : Props)
    (event : Event.t) (h : Heap) : list (list loc) :=
  match (validateFiles newRegExp props event h).1 with
  | inr addedFiles => [addedFiles]
  | inl _ => []
  end.

(** ** Concrete inputs *)

(** A host cut down to the one pattern whose matcher is spelled out
    above; it is only ever applied to that pattern. *)
Definition newRegExp_default (p : string) : option RegExp :=
  if String.eqb p (pattern defaultProps) then Some defaultRegExp else None.

Definition enabled_props (acceptList : list string) (p : string) : Props :=
  {| accept := acceptList; disabled := false; pattern := p |}.

Definition disabled_props (acceptList : list string) (p : string) : Props :=
  {| accept := acceptList; disabled := true; pattern := p |}.

(** Enabled, with the default pattern. *)
Definition accepting (acceptList : list string) : Props :=
  enabled_props acceptList (pattern defaultProps).

(** A record that was found invalid by an earlier classification. *)
Definition old_png : File.t :=
  File.mk "old.png" (Some "image/png") (Some true).

(** An editor backup: the name ends in a code unit outside [[0-9a-z]]. *)
Definition notes_backup : File.t :=
  File.mk "notes.txt~" (Some "text/plain") None.

Definition PHOTO_PNG (mime : option string) : File.t :=
  File.mk "PHOTO.PNG" mime None.

(** A value of the file input. *)
Definition fakepath_a_png : string := "C:\fakepath\a.png".

(** The example of the spec: [a.png], [b.txt] and [c.jpg]. *)
Definition three_files : Heap :=
  {[ 1 := File.mk "a.png" (Some "") None;
     2 := File.mk "b.txt" (Some "text/plain") None;
     3 := File.mk "c.jpg" (Some "image/jpeg") None ]}.

(** ** Further observations, for the properties beyond the claims *)

(** The records of two heaps agree on name and MIME type, whatever their
    annotations. *)
Definition same_name_type (h1 h2 : Heap) : Prop :=
  ∀ l, File.name <$> h1 !! l = File.name <$> h2 !! l ∧
       File.type <$> h1 !! l = File.type <$> h2 !! l.

(** A record as it was before any annotation. *)
Definition without_annotation (f : File.t) : File.t :=
  File.mk (File.name f) (File.type f) None.

(** The exceptions that left a handler. *)
Fixpoint uncaughts (calls : list Call) : list Exception :=
  match calls with
  | [] => []
  | uncaught e :: cs => e :: uncaughts cs
  | _ :: cs => uncaughts cs
  end.

(** The events that get as far as [handleChange]: a drop while the props
    are not disabled, and every change of the input. *)
Definition reaches_handleChange (pe : Props * DomEvent) : bool :=
  match pe.2 with
  | Drop _ => negb (disabled pe.1)
  | InputChange _ => true
  | _ => false
  end.


(** Did a click event reach the input, so that the picker opens? *)
Definition opens_picker (calls : list Call) : bool :=
  existsb (λ c, match c with show_picker => true | _ => false end) calls.

(** The events of the [div]'s three handlers. *)
Definition has_drag_handler (e : DomEvent) : bool :=
  match e with
  | DragOver | DragLeave | Drop _ => true
  | _ => false
  end.

Definition is_set_dropEffect (c : Call) : bool :=
  match c with set_dropEffect _ => true | _ => false end.

(** The events whose handler writes the drag state: those of the [div]'s
    three handlers, while the props are not disabled. *)
Definition moves_drag_state (pe : Props * DomEvent) : bool :=
  has_drag_handler pe.2 && negb (disabled pe.1).

(** [three_files] and a fourth record whose name has two dots. *)
Definition four_files : Heap :=
  <[4 := File.mk "archive.tar.GZ" (Some "application/gzip") None]> three_files.

(** ** Lemmas on the building blocks *)

Lemma default_exec_cons c s :
  default_exec (String c s)
  = if matches_here (String c s) then Some (String c s) else default_exec s.
Proof. reflexivity. Qed.

Lemma length_append (s1 s2 : string) :
  String.length (s1 ++ s2)%string = String.length s1 + String.length s2.
Proof. induction s1 as [|c s1 IH]; simpl; [done|]. by rewrite IH. Qed.

(** The token [default_exec] returns is a suffix of the subject on which
    the expression matches ... *)
Lemma default_exec_suffix s m :
  default_exec s = Some m →
  matches_here m = true ∧ ∃ pre, s = (pre ++ m)%string.
Proof.
  induction s as [|c s IH].
  - discriminate.
  - rewrite default_exec_cons.
    destruct (matches_here (String c s)) eqn:Hhere.
    + intros [= <-]. split; [done|]. by exists ""%string.
    + intros Hrest. destruct (IH Hrest) as [Hm [pre ->]].
      split; [done|]. by exists (String c pre).
Qed.

(** ... and the leftmost such suffix: no longer suffix matches. *)
Lemma default_exec_leftmost pre m :
  default_exec (pre ++ m)%string = Some m →
  ∀ p1 p2, pre = (p1 ++ p2)%string → p2 ≠ ""%string →
    matches_here (p2 ++ m)%string = false.
Proof.
  induction pre as [|c pre IH]; intros Hexec p1 p2 Hsplit Hp2.
  - destruct p1, p2; try discriminate Hsplit. by destruct Hp2.
  - change (String c pre ++ m)%string with (String c (pre ++ m)%string)
      in Hexec.
    rewrite default_exec_cons in Hexec.
    destruct (matches_here (String c (pre ++ m)%string)) eqn:Hhere.
    + exfalso. injection Hexec as Hm.
      apply (f_equal String.length) in Hm. simpl in Hm.
      rewrite length_append in Hm. lia.
    + destruct p1 as [|c1 p1].
      * change (String c pre = p2) in Hsplit. by subst p2.
      * change (String c pre = String c1 (p1 ++ p2)%string) in Hsplit.
        injection Hsplit as -> ->. by apply (IH Hexec p1 p2).
Qed.

(** No match means that the expression matches on no suffix. *)
Lemma default_exec_None pre m :
  default_exec (pre ++ m)%string = None → matches_here m = false.
Proof.
  induction pre as [|c pre IH].
  - change (default_exec m = None → matches_here m = false).
    destruct m as [|c m]; [done|]. rewrite default_exec_cons.
    by destruct (matches_here (String c m)).
  - change (default_exec (String c (pre ++ m)%string) = None
            → matches_here m = false).
    rewrite default_exec_cons.
    destruct (matches_here (String c (pre ++ m)%string)); [done|exact IH].
Qed.

Lemma set_invalidFileType_idemp f :
  File.set_invalidFileType (File.set_invalidFileType f)
  = File.set_invalidFileType f.
Proof. reflexivity. Qed.

Lemma set_invalidFileType_id f :
  File.invalidFileType f = Some true → File.set_invalidFileType f = f.
Proof. destruct f as [n t a]; simpl; intros ->; reflexivity. Qed.

Lemma verdict_set_invalidFileType re acceptList f :
  verdict re acceptList (File.set_invalidFileType f) = verdict re acceptList f.
Proof. reflexivity. Qed.

Lemma has_list_to_set (acceptList : list string) x :
  has (list_to_set acceptList) x = bool_decide (x ∈ acceptList).
Proof. unfold has. apply bool_decide_ext. apply elem_of_list_to_set. Qed.

Lemma length_eqb_0 {A} (l : list A) : (length l =? 0) = bool_decide (l = []).
Proof. destruct l; reflexivity. Qed.

Lemma bool_decide_elem_of_tail (l curr : loc) (files : list loc) :
  l ≠ curr → bool_decide (l ∈ curr :: files) = bool_decide (l ∈ files).
Proof.
  intros Hne. apply bool_decide_ext. rewrite elem_of_cons.
  split; [intros [?|?]; [contradiction|assumption] | by right].
Qed.

Section validateFiles_facts.
Variable newRegExp : string → option RegExp.
Variable props : Props.

(** One turn of the reducer on a defined element, once the pattern
    compiles. *)
Lemma validate_step_defined re acc curr h f :
  newRegExp (pattern props) = Some re →
  h !! curr = Some f →
  validate_step newRegExp props (list_to_set (accept props)) acc curr h
  = match verdict re (accept props) f with
    | Excluded => (inr acc, h)
    | Accepted => (inr (acc ++ [curr]), h)
    | Invalid => (inr (acc ++ [curr]), alter File.set_invalidFileType curr h)
    end.
Proof.
  intros Hre Hf.
  unfold validate_step, mbind, JS_bind, bind, deref, new_RegExp.
  rewrite Hf, Hre. unfold ret, test, String_match, verdict.
  destruct (exec re (File.name f)) as [ext|]; simpl; [|reflexivity].
  rewrite !has_list_to_set.
  destruct (bool_decide _ || bool_decide _); reflexivity.
Qed.

(** Whatever the element and the host, a turn leaves every record as it
    was or annotates it. *)
Lemma validate_step_heap S acc curr h l :
  let h' := (validate_step newRegExp props S acc curr h).2 in
  h' !! l = h !! l ∨ h' !! l = File.set_invalidFileType <$> h !! l.
Proof.
  unfold validate_step, mbind, JS_bind, bind, deref, new_RegExp.
  destruct (h !! curr) as [f|] eqn:Hf; simpl; [|by left].
  destruct (newRegExp (pattern props)) as [re|]; simpl; [|by left].
  destruct (negb (test re (File.name f))); simpl; [by left|].
  destruct (String_match (File.name f) re); simpl; [|by left].
  destruct (has S _ || has S _); simpl; [by left|].
  destruct (decide (l = curr)) as [->|Hne].
  - right. by rewrite lookup_alter_eq.
  - left. by rewrite lookup_alter_ne.
Qed.

Lemma reduce_heap S files : ∀ acc h l,
  let h' := (reduce (validate_step newRegExp props S) files acc h).2 in
  h' !! l = h !! l ∨ h' !! l = File.set_invalidFileType <$> h !! l.
Proof.
  induction files as [|curr files IH]; intros acc h l; simpl; [by left|].
  unfold mbind, JS_bind, bind.
  pose proof (validate_step_heap S acc curr h l) as Hstep. simpl in Hstep.
  destruct (validate_step newRegExp props S acc curr h) as [[e|acc1] h1];
    simpl in *; [exact Hstep|].
  specialize (IH acc1 h1 l). simpl in IH.
  destruct IH as [-> | ->], Hstep as [-> | ->]; auto.
  right. destruct (h !! l); reflexivity.
Qed.

Lemma keeps_alter re acceptList curr h l :
  keeps re acceptList (alter File.set_invalidFileType curr h) l
  = keeps re acceptList h l.
Proof.
  unfold keeps. destruct (decide (l = curr)) as [->|Hne].
  - rewrite lookup_alter_eq. by destruct (h !! curr).
  - by rewrite lookup_alter_ne.
Qed.

Lemma annotate_nil re acceptList h : annotate re acceptList [] h = h.
Proof.
  apply map_eq; intros l. unfold annotate. rewrite map_lookup_imap.
  by destruct (h !! l).
Qed.

Lemma lookup_annotate re acceptList files h l :
  annotate re acceptList files h !! l
  = (λ f, if bool_decide (l ∈ files) && is_invalid (verdict re acceptList f)
          then File.set_invalidFileType f else f) <$> h !! l.
Proof. unfold annotate. rewrite map_lookup_imap. by destruct (h !! l). Qed.

Lemma keeps_lookup re acceptList h l f :
  h !! l = Some f → keeps re acceptList h l = is_kept (verdict re acceptList f).
Proof. unfold keeps. by intros ->. Qed.

Lemma all_defined_alter curr h files :
  all_defined h files →
  all_defined (alter File.set_invalidFileType curr h) files.
Proof.
  intros Hdef. eapply Forall_impl; [exact Hdef|].
  intros l [g Hg]; simpl.
  destruct (decide (l = curr)) as [->|Hne].
  - rewrite lookup_alter_eq, Hg. by eexists.
  - rewrite lookup_alter_ne by done. by eexists.
Qed.

Lemma annotate_skip re acceptList curr files h f :
  h !! curr = Some f →
  is_invalid (verdict re acceptList f) = false →
  annotate re acceptList (curr :: files) h = annotate re acceptList files h.
Proof.
  intros Hf Hv. apply map_eq; intros l. rewrite !lookup_annotate.
  destruct (decide (l = curr)) as [->|Hne].
  - rewrite Hf. simpl. by rewrite Hv, !andb_false_r.
  - by rewrite (bool_decide_elem_of_tail l curr files Hne).
Qed.

Lemma annotate_alter re acceptList curr files h f :
  h !! curr = Some f →
  is_invalid (verdict re acceptList f) = true →
  annotate re acceptList files (alter File.set_invalidFileType curr h)
  = annotate re acceptList (curr :: files) h.
Proof.
  intros Hf Hv. apply map_eq; intros l. rewrite !lookup_annotate.
  destruct (decide (l = curr)) as [->|Hne].
  - rewrite lookup_alter_eq, Hf. simpl.
    rewrite verdict_set_invalidFileType, !Hv.
    rewrite (bool_decide_true (curr ∈ curr :: files))
      by apply list_elem_of_here.
    by destruct (bool_decide (curr ∈ files)).
  - rewrite lookup_alter_ne by done.
    by rewrite (bool_decide_elem_of_tail l curr files Hne).
Qed.

(** The reducer, run over defined elements with a pattern that
    compiles, is the filter on the verdicts, and the heap it leaves is
    the annotated one. *)
Lemma reduce_validate_step re files : ∀ acc h,
  newRegExp (pattern props) = Some re →
  all_defined h files →
  reduce (validate_step newRegExp props (list_to_set (accept props)))
    files acc h
  = (inr (acc ++ filter (λ l, keeps re (accept props) h l = true) files),
     annotate re (accept props) files h).
Proof.
  induction files as [|curr files IH]; intros acc h Hre Hdef; simpl.
  - by rewrite app_nil_r, annotate_nil.
  - apply Forall_cons in Hdef as [[f Hf] Hdef].
    unfold mbind, JS_bind, bind.
    rewrite (validate_step_defined re acc curr h f Hre Hf).
    pose proof (keeps_lookup re (accept props) h curr f Hf) as Hk.
    destruct (verdict re (accept props) f) eqn:Hv; simpl in Hk.
    + rewrite (IH acc h Hre Hdef).
      rewrite filter_cons_False by (rewrite Hk; discriminate).
      by rewrite (annotate_skip _ _ _ _ _ f Hf) by (by rewrite Hv).
    + rewrite (IH (acc ++ [curr]) h Hre Hdef), <- app_assoc.
      rewrite filter_cons_True by done.
      by rewrite (annotate_skip _ _ _ _ _ f Hf) by (by rewrite Hv).
    + rewrite (IH (acc ++ [curr]) _ Hre (all_defined_alter curr h files Hdef)).
      rewrite <- app_assoc, (filter_cons_True _ curr) by done.
      rewrite (annotate_alter _ _ _ _ _ f Hf) by (by rewrite Hv).
      rewrite (list_filter_iff _ (λ l, keeps re (accept props) h l = true));
        [done|].
      intros l. by rewrite keeps_alter.
Qed.
End validateFiles_facts.

(** [validateFiles] in closed form, for a non-empty accept-list. *)
Lemma validateFiles_classify newRegExp props re event h :
  accept props ≠ [] →
  newRegExp (pattern props) = Some re →
  all_defined h (transferredFiles event) →
  validateFiles newRegExp props event h
  = (inr (filter (λ l, keeps re (accept props) h l = true)
            (transferredFiles event)),
     annotate re (accept props) (transferredFiles event) h).
Proof.
  intros Hacc Hre Hdef. unfold validateFiles.
  rewrite length_eqb_0, bool_decide_false by done.
  by rewrite (reduce_validate_step newRegExp props re _ [] h Hre Hdef).
Qed.

Lemma validateFiles_empty newRegExp props event h :
  accept props = [] →
  validateFiles newRegExp props event h = (inr (transferredFiles event), h).
Proof. intros Hacc. unfold validateFiles. by rewrite Hacc. Qed.

(** [validateFiles] refines [classify], with the matcher the host makes of
    the pattern. *)
Lemma validateFiles_refines_classify newRegExp props re event h :
  (accept props ≠ [] →
   newRegExp (pattern props) = Some re ∧
   all_defined h (transferredFiles event)) →
  validateFiles newRegExp props event h
  = (inr (classify re (accept props) (transferredFiles event) h).1,
     (classify re (accept props) (transferredFiles event) h).2).
Proof.
  intros Hhyp. unfold classify. case_bool_decide as Hacc.
  - by apply validateFiles_empty.
  - destruct (Hhyp Hacc) as [Hre Hdef]. by apply validateFiles_classify.
Qed.

Lemma validateFiles_heap newRegExp props event h l :
  let h' := (validateFiles newRegExp props event h).2 in
  h' !! l = h !! l ∨ h' !! l = File.set_invalidFileType <$> h !! l.
Proof.
  unfold validateFiles. destruct (length (accept props) =? 0); [by left|].
  apply reduce_heap.
Qed.

Lemma occurrences_filter (P : loc → Prop) `{!∀ x, Decision (P x)} l files :
  P l → occurrences l (filter P files) = occurrences l files.
Proof.
  intros HP. unfold occurrences. rewrite list_filter_filter.
  f_equal. apply list_filter_iff. intros x. split.
  - by intros [? _].
  - intros ->. by split.
Qed.

Lemma lookup_annotate_Some re acceptList files h l f :
  h !! l = Some f →
  l ∈ files →
  annotate re acceptList files h !! l
  = Some (if is_invalid (verdict re acceptList f)
          then File.set_invalidFileType f else f).
Proof.
  intros Hf Hl. rewrite lookup_annotate, Hf. simpl.
  by rewrite bool_decide_true.
Qed.

Lemma lookup_annotate_valid re acceptList files h l f :
  h !! l = Some f →
  is_invalid (verdict re acceptList f) = false →
  annotate re acceptList files h !! l = Some f.
Proof.
  intros Hf Hv. rewrite lookup_annotate, Hf. simpl.
  by rewrite Hv, andb_false_r.
Qed.

(** A file whose name matches is kept, and its record afterwards is the
    old one, annotated unless the MIME type or the lowercased token is in
    the accept-list. *)
Lemma classify_matching_file re acceptList files h l f ext :
  l ∈ files →
  h !! l = Some f →
  exec re (File.name f) = Some ext →
  keeps re acceptList h l = true ∧
  annotate re acceptList files h !! l
  = Some (if bool_decide (default "" (File.type f) ∈ acceptList)
             || bool_decide (toLowerCase ext ∈ acceptList)
          then f else File.set_invalidFileType f).
Proof.
  intros Hl Hf Hext. split.
  - rewrite (keeps_lookup re _ h l f Hf). unfold verdict. rewrite Hext.
    by destruct (_ || _).
  - rewrite (lookup_annotate_Some re _ _ h l f Hf Hl).
    unfold verdict. rewrite Hext. by destruct (_ || _).
Qed.

Example default_exec_PHOTO_PNG : default_exec "PHOTO.PNG" = Some ".PNG".
Proof. reflexivity. Qed.

Example default_exec_no_dot : default_exec "README" = Some "README".
Proof. reflexivity. Qed.

Example default_exec_backup : default_exec "notes.txt~" = None.
Proof. reflexivity. Qed.

Example validateFiles_three_files :
  validateFiles newRegExp_default (accepting [".png"; "image/jpeg"])
    (drop_of [1; 2; 3]) three_files
  = (inr [1; 2; 3],
     <[2 := File.mk "b.txt" (Some "text/plain") (Some true)]> three_files).
Proof. vm_compute. reflexivity. Qed.

Example drop_three_files :
  handle newRegExp_default (accepting [".png"; "image/jpeg"])
    (setActive true (initial three_files)) (Drop [1; 2; 3])
  = (initial
       (<[2 := File.mk "b.txt" (Some "text/plain") (Some true)]> three_files),
     [stopPropagation; preventDefault; onAddFiles (drop_of [1; 2; 3]) [1; 2; 3]]).
Proof. vm_compute. reflexivity. Qed.

(** A pattern the host refuses makes the reducer throw on the first file,
    and nothing is handed to [onAddFiles]. *)
Example change_bad_pattern :
  handle (λ _, None) (enabled_props [".png"] "(") (initial three_files)
    (InputChange [1; 2; 3])
  = (initial three_files, [uncaught SyntaxError]).
Proof. vm_compute. reflexivity. Qed.

(** ** The claims on [validateFiles] *)

(** C1, as the code has it: for a non-empty accept-list, a pattern that
    compiles and a list of defined files, [validateFiles] returns, and
    every file whose name matches the pattern is in the result as often as
    it is listed (once when listed once), the result being the input with
    the unmatched names filtered out. When the MIME type, or the lowercased
    extension token, is in the accept-list, the record is left as it was on
    input: no annotation is added, and an annotation it already had stays.
    Otherwise it is kept and annotated [invalidFileType = true]. *)
Theorem validateFiles_matching_file newRegExp props re event h :
  accept props ≠ [] →
  newRegExp (pattern props) = Some re →
  all_defined h (transferredFiles event) →
  ∃ res h',
    validateFiles newRegExp props event h = (inr res, h') ∧
    res = filter (λ l, keeps re (accept props) h l = true)
            (transferredFiles event) ∧
    ∀ l f ext,
      l ∈ transferredFiles event →
      h !! l = Some f →
      exec re (File.name f) = Some ext →
      l ∈ res ∧
      occurrences l res = occurrences l (transferredFiles event) ∧
      (default "" (File.type f) ∈ accept props
       ∨ toLowerCase ext ∈ accept props →
       h' !! l = Some f) ∧
      (¬ (default "" (File.type f) ∈ accept props
          ∨ toLowerCase ext ∈ accept props) →
       h' !! l = Some (File.set_invalidFileType f)).
Proof.
  intros Hacc Hre Hdef. eexists _, _.
  split; [exact (validateFiles_classify _ _ re _ _ Hacc Hre Hdef)|].
  split; [reflexivity|].
  intros l f ext Hl Hf Hext.
  destruct (classify_matching_file re (accept props) _ h l f ext Hl Hf Hext)
    as [Hk Hrec].
  split; [by apply list_elem_of_filter|].
  split; [by apply (occurrences_filter
                      (λ l, keeps re (accept props) h l = true))|].
  rewrite Hrec. split.
  - intros Hin. rewrite orb_true_intro; [done|].
    destruct Hin as [Hin|Hin]; [left|right]; by apply bool_decide_eq_true.
  - intros Hnot. rewrite (proj2 (orb_false_iff _ _)); [done|].
    split; apply bool_decide_eq_false; tauto.
Qed.

Lemma validateFiles_matching_file_witness :
  ∃ res h',
    validateFiles newRegExp_default (accepting [".png"; "image/jpeg"])
      (drop_of [1; 2; 3]) three_files = (inr res, h') ∧
    res = [1; 2; 3] ∧
    h' !! 1 = Some (File.mk "a.png" (Some "") None) ∧
    h' !! 2 = Some (File.mk "b.txt" (Some "text/plain") (Some true)).
Proof.
  destruct (validateFiles_matching_file newRegExp_default
              (accepting [".png"; "image/jpeg"]) defaultRegExp
              (drop_of [1; 2; 3]) three_files)
    as (res & h' & Hrun & Hres & Hfiles).
  - discriminate.
  - reflexivity.
  - repeat constructor; by eexists.
  - exists res, h'. split; [exact Hrun|]. split; [by rewrite Hres|].
    split.
    + apply (Hfiles 1 _ ".png"); [compute_done|reflexivity|reflexivity|].
      right. compute_done.
    + apply (Hfiles 2 (File.mk "b.txt" (Some "text/plain") None) ".txt");
        [compute_done|reflexivity|reflexivity|compute_done].
Defined.

(** C1 as worded fails on a record that comes in annotated: [old.png] is
    accepted by its extension and by its MIME type, and the record in the
    result still carries [invalidFileType = true]. *)
Lemma validateFiles_accepted_keeps_old_annotation :
  default_exec (File.name old_png) = Some ".png" ∧
  toLowerCase ".png" ∈ accept (accepting [".png"; "image/png"]) ∧
  (validateFiles newRegExp_default (accepting [".png"; "image/png"])
     (drop_of [7]) {[ 7 := old_png ]}).1 = inr [7] ∧
  File.invalidFileType <$>
    (validateFiles newRegExp_default (accepting [".png"; "image/png"])
       (drop_of [7]) {[ 7 := old_png ]}).2 !! 7 = Some (Some true).
Proof.
  split; [reflexivity|]. split; [compute_done|].
  split; vm_compute; reflexivity.
Qed.

(** C2: with an empty accept-list [validateFiles] returns the transferred
    files as they are, same length and same order, and leaves every record
    untouched; the pattern is not even compiled, so this holds for every
    pattern and every host, also one that refuses the pattern. *)
Theorem validateFiles_accept_empty newRegExp props event h :
  accept props = [] →
  validateFiles newRegExp props event h = (inr (transferredFiles event), h) ∧
  validateFiles (λ _, None) props event h = (inr (transferredFiles event), h).
Proof. intros Hacc. split; by apply validateFiles_empty. Qed.

Lemma validateFiles_accept_empty_witness :
  validateFiles newRegExp_default defaultProps (drop_of [3; 1; 2]) three_files
  = (inr [3; 1; 2], three_files).
Proof.
  apply (validateFiles_accept_empty newRegExp_default defaultProps
           (drop_of [3; 1; 2]) three_files).
  reflexivity.
Defined.

(** C3 as worded fails: with the accept-list [".txt"] and the default
    pattern, the file [notes.txt~] is removed from the result. *)
Lemma validateFiles_removes_backup :
  validateFiles newRegExp_default (accepting [".txt"]) (drop_of [4])
    {[ 4 := notes_backup ]}
  = (inr [], {[ 4 := notes_backup ]}).
Proof. vm_compute. reflexivity. Qed.

(** C3, as the code has it: the result is a subsequence of the input, in
    input order; a file is removed exactly when the accept-list is not
    empty and its name yields no match against the pattern; every file
    that is kept is left as it was or marked invalid. *)
Theorem validateFiles_keeps_matching newRegExp props re event h :
  (accept props ≠ [] →
   newRegExp (pattern props) = Some re ∧
   all_defined h (transferredFiles event)) →
  ∃ res h',
    validateFiles newRegExp props event h = (inr res, h') ∧
    res `sublist_of` transferredFiles event ∧
    (∀ l f, l ∈ transferredFiles event → h !! l = Some f →
       (l ∈ res ↔ accept props = [] ∨ is_Some (exec re (File.name f)))) ∧
    (∀ l f, l ∈ res → h !! l = Some f →
       h' !! l = Some f ∨ h' !! l = Some (File.set_invalidFileType f)).
Proof.
  intros Hhyp. destruct (decide (accept props = [])) as [Hacc|Hacc].
  - exists (transferredFiles event), h.
    split; [by apply validateFiles_empty|]. split; [done|].
    split; [intros l f Hl _; split; [by left|done]|].
    intros l f _ Hf. by left.
  - destruct (Hhyp Hacc) as [Hre Hdef]. eexists _, _.
    split; [exact (validateFiles_classify _ _ re _ _ Hacc Hre Hdef)|].
    split; [apply sublist_filter|]. split.
    + intros l f Hl Hf. rewrite list_elem_of_filter.
      rewrite (keeps_lookup re _ h l f Hf). unfold verdict.
      destruct (exec re (File.name f)) as [ext|]; simpl.
      * split; [intros _; right; by eexists|intros _; split; [|done]].
        by destruct (_ || _).
      * split; [intros [? _]; discriminate|].
        intros [?|[? ?]]; [contradiction|discriminate].
    + intros l f [_ Hl]%list_elem_of_filter Hf.
      rewrite (lookup_annotate_Some re _ _ h l f Hf Hl).
      destruct (is_invalid _); [by right|by left].
Qed.

Lemma validateFiles_keeps_matching_witness :
  ∃ res h',
    validateFiles newRegExp_default (accepting [".png"; "image/jpeg"])
      (drop_of [1; 2; 3]) three_files = (inr res, h') ∧
    res `sublist_of` [1; 2; 3].
Proof.
  destruct (validateFiles_keeps_matching newRegExp_default
              (accepting [".png"; "image/jpeg"]) defaultRegExp
              (drop_of [1; 2; 3]) three_files)
    as (res & h' & Hrun & Hsub & _).
  - intros _. split; [reflexivity|]. repeat constructor; by eexists.
  - exists res, h'. by split.
Defined.

(** C4: for a non-empty accept-list, a file whose name yields no match
    against the pattern is not in the result; its record is not annotated,
    and [validateFiles] returns normally. *)
Theorem validateFiles_unmatched_excluded newRegExp props re event h l f :
  accept props ≠ [] →
  newRegExp (pattern props) = Some re →
  all_defined h (transferredFiles event) →
  l ∈ transferredFiles event →
  h !! l = Some f →
  exec re (File.name f) = None →
  ∃ res h',
    validateFiles newRegExp props event h = (inr res, h') ∧
    (l ∉ res) ∧
    h' !! l = Some f.
Proof.
  intros Hacc Hre Hdef Hl Hf Hnone. eexists _, _.
  split; [exact (validateFiles_classify _ _ re _ _ Hacc Hre Hdef)|].
  split.
  - rewrite list_elem_of_filter, (keeps_lookup re _ h l f Hf).
    unfold verdict. rewrite Hnone. simpl. intros [? _]. discriminate.
  - apply lookup_annotate_valid; [done|].
    unfold verdict. by rewrite Hnone.
Qed.

Lemma validateFiles_unmatched_excluded_witness :
  ∃ res h',
    validateFiles newRegExp_default (accepting [".txt"]) (drop_of [4])
      {[ 4 := notes_backup ]} = (inr res, h') ∧
    (4 ∉ res) ∧
    h' !! 4 = Some notes_backup.
Proof.
  apply (validateFiles_unmatched_excluded newRegExp_default
           (accepting [".txt"]) defaultRegExp (drop_of [4])
           {[ 4 := notes_backup ]} 4 notes_backup).
  - discriminate.
  - reflexivity.
  - repeat constructor; by eexists.
  - compute_done.
  - reflexivity.
  - reflexivity.
Defined.



(** C10: a record that carries [invalidFileType = true] on input carries
    it after [validateFiles] too, and is the same record, whether the file
    is accepted, found invalid or excluded, and also when [validateFiles]
    throws part-way: the annotation is set and never reset. *)
Theorem validateFiles_never_clears newRegExp props event h l f :
  h !! l = Some f →
  File.invalidFileType f = Some true →
  (validateFiles newRegExp props event h).2 !! l = Some f ∧
  File.invalidFileType <$> (validateFiles newRegExp props event h).2 !! l
  = Some (Some true).
Proof.
  intros Hf Hinv.
  assert ((validateFiles newRegExp props event h).2 !! l = Some f) as ->.
  { destruct (validateFiles_heap newRegExp props event h l) as [-> | ->];
      rewrite Hf; [done|]. simpl. by rewrite set_invalidFileType_id. }
  by rewrite <- Hinv.
Qed.

Lemma validateFiles_never_clears_witness :
  (validateFiles newRegExp_default (accepting [".png"; "image/png"])
     (drop_of [7]) {[ 7 := old_png ]}).2 !! 7 = Some old_png ∧
  File.invalidFileType <$>
    (validateFiles newRegExp_default (accepting [".png"; "image/png"])
       (drop_of [7]) {[ 7 := old_png ]}).2 !! 7 = Some (Some true).
Proof.
  apply (validateFiles_never_clears newRegExp_default
           (accepting [".png"; "image/png"]) (drop_of [7])
           {[ 7 := old_png ]} 7 old_png); reflexivity.
Defined.

(** ** The claims on the component *)

(** The three ways to the input, evaluated. *)
Lemma handle_KeyDown newRegExp props s k :
  handle newRegExp props s (KeyDown k)
  = if matches k [Enter; Space]
    then if disabled props then (s, [preventDefault; inputRef_click])
         else (set_value "" s, [preventDefault; inputRef_click; show_picker])
    else (s, []).
Proof.
  unfold handle, inputRef_current_click, input_click, input_onClick.
  by destruct (matches k [Enter; Space]), (disabled props).
Qed.

Lemma handle_Click newRegExp props s :
  handle newRegExp props s Click
  = if disabled props then (s, [onClick])
    else (set_value "" s, [onClick; inputRef_click; show_picker]).
Proof.
  unfold handle, composeEventHandlers, handleClick, inputRef_current_click,
    input_click, input_onClick. simpl.
  by destruct (disabled props).
Qed.

Lemma handle_InputClick newRegExp props s :
  handle newRegExp props s InputClick
  = if disabled props then (s, []) else (set_value "" s, [show_picker]).
Proof. reflexivity. Qed.

Example click_resets_value :
  handle newRegExp_default (accepting [".png"])
    (set_value fakepath_a_png (initial three_files)) Click
  = (initial three_files, [onClick; inputRef_click; show_picker]).
Proof. vm_compute. reflexivity. Qed.

Example disabled_input_click_keeps_value :
  handle newRegExp_default (disabled_props [".png"] ".[0-9a-z]+$")
    (set_value fakepath_a_png (initial three_files)) InputClick
  = (set_value fakepath_a_png (initial three_files), []).
Proof. vm_compute. reflexivity. Qed.

Ltac click_paths :=
  rewrite ?handle_KeyDown, ?handle_Click, ?handle_InputClick.

Lemma handle_disabled_drag newRegExp props s e :
  disabled props = true →
  is_drag_event e = true →
  (handle newRegExp props s e).1 = s ∧
  callbacks (handle newRegExp props s e).2 = [].
Proof.
  intros Hdis Hdrag. destruct e; try discriminate; simpl; rewrite ?Hdis; done.
Qed.

Lemma handle_disabled_isActive newRegExp props s e :
  disabled props = true →
  isActive (handle newRegExp props s e).1 = isActive s.
Proof.
  intros Hdis.
  destruct e as [ | | | files | k | | | files]; click_paths; rewrite ?Hdis;
    try done.
  - simpl. by rewrite Hdis.
  - simpl. by rewrite Hdis.
  - simpl. by rewrite Hdis.
  - by destruct (matches k [Enter; Space]).
  - unfold handle, handleChange.
    by destruct (validateFiles _ _ _ _) as [[?|?] ?].
Qed.

Lemma callbacks_app c1 c2 : callbacks (c1 ++ c2) = callbacks c1 ++ callbacks c2.
Proof. apply List.filter_app. Qed.

Lemma added_app c1 c2 : added (c1 ++ c2) = added c1 ++ added c2.
Proof.
  induction c1 as [|c c1 IH]; [done|]. destruct c; simpl; by rewrite ?IH.
Qed.

Lemma added_handleChange newRegExp props event s :
  added (handleChange newRegExp props event s).2
  = classified newRegExp props event (heap s).
Proof.
  unfold handleChange, classified.
  by destruct (validateFiles _ _ _ _) as [[?|?] ?].
Qed.

Lemma isActive_handleChange newRegExp props event s :
  isActive (handleChange newRegExp props event s).1 = isActive s.
Proof.
  unfold handleChange. by destruct (validateFiles _ _ _ _) as [[?|?] ?].
Qed.

Lemma input_value_handleChange newRegExp props event s :
  input_value (handleChange newRegExp props event s).1 = input_value s.
Proof.
  unfold handleChange. by destruct (validateFiles _ _ _ _) as [[?|?] ?].
Qed.

(** C6: while [disabled] is set, drag-enter, drag-over, drag-leave and
    drop events, one or many, leave the whole state as it was and fire no
    callback; so the drag state of a component that is disabled from its
    first render stays at IDLE, whatever events it is sent. *)
Theorem disabled_freezes_drag_state newRegExp evs :
  Forall (λ pe, disabled pe.1 = true) evs →
  ∀ s h,
    (Forall (λ pe, is_drag_event pe.2 = true) evs →
     (run newRegExp evs s).1 = s ∧
     callbacks (run newRegExp evs s).2 = [] ∧
     added (run newRegExp evs s).2 = []) ∧
    isActive (run newRegExp evs s).1 = isActive s ∧
    isActive (run newRegExp evs (initial h)).1 = false.
Proof.
  intros Hdis.
  assert (∀ s, isActive (run newRegExp evs s).1 = isActive s) as Hact.
  { induction Hdis as [|[p e] evs Hp _ IH]; intros s; simpl; [done|].
    pose proof (handle_disabled_isActive newRegExp p s e Hp) as Hstep.
    destruct (handle newRegExp p s e) as [s1 c1].
    specialize (IH s1). destruct (run newRegExp evs s1) as [s2 c2].
    simpl in *. congruence. }
  intros s h. split; [|split; [apply Hact|by rewrite Hact]].
  clear Hact. revert s.
  induction Hdis as [|[p e] evs Hp _ IH]; intros s Hdrag; simpl; [done|].
  apply Forall_cons in Hdrag as [He Hdrag].
  destruct (handle_disabled_drag newRegExp p s e Hp He) as [Hs Hc].
  assert (added (handle newRegExp p s e).2 = []) as Ha.
  { destruct e; try discriminate; simpl in *; rewrite ?Hp; done. }
  destruct (handle newRegExp p s e) as [s1 c1]. simpl in *. subst s1.
  destruct (IH s Hdrag) as (Hs2 & Hc2 & Ha2).
  destruct (run newRegExp evs s) as [s2 c2]. simpl in *.
  by rewrite callbacks_app, added_app, Hc, Hc2, Ha, Ha2.
Qed.

Lemma disabled_freezes_drag_state_witness :
  (run newRegExp_default
     [(disabled_props [] ".[0-9a-z]+$", DragOver);
      (disabled_props [] ".[0-9a-z]+$", Drop [1; 2; 3]);
      (disabled_props [] ".[0-9a-z]+$", DragLeave)]
     (initial three_files)).1 = initial three_files.
Proof.
  apply (disabled_freezes_drag_state newRegExp_default
           [(disabled_props [] ".[0-9a-z]+$", DragOver);
            (disabled_props [] ".[0-9a-z]+$", Drop [1; 2; 3]);
            (disabled_props [] ".[0-9a-z]+$", DragLeave)]).
  - repeat constructor.
  - exact ∅.
  - repeat constructor.
Defined.

(** C7: on an enabled component, from any drag state, a drag-enter (or
    the drag-over that the component listens to) followed by a drag-leave
    leaves the drag state at IDLE, and neither of them calls [onAddFiles].
    Of all events only a drop and a change of the file input call it:
    once, with the list [validateFiles] returned. *)
Theorem drag_enter_leave_idle newRegExp props s enter :
  disabled props = false →
  enter = DragEnter ∨ enter = DragOver →
  isActive (run newRegExp [(props, enter); (props, DragLeave)] s).1 = false ∧
  added (run newRegExp [(props, enter); (props, DragLeave)] s).2 = [] ∧
  ∀ s' e,
    added (handle newRegExp props s' e).2
    = match e with
      | Drop files => classified newRegExp props (drop_of files) (heap s')
      | InputChange files =>
          classified newRegExp props (change_of files) (heap s')
      | _ => []
      end.
Proof.
  intros Hen Henter. split; [|split].
  - destruct Henter as [-> | ->]; simpl; by rewrite Hen.
  - destruct Henter as [-> | ->]; simpl; by rewrite Hen.
  - intros s' e.
    destruct e as [ | | | files | k | | | files]; click_paths; simpl;
      rewrite ?Hen; try done.
    + pose proof (added_handleChange newRegExp props (drop_of files)
                    (setActive false s')) as Hadd.
      by destruct (handleChange _ _ _ _) as [s1 c1].
    + by destruct k.
    + apply added_handleChange.
Qed.

Lemma drag_enter_leave_idle_witness :
  isActive (run newRegExp_default
              [(enabled_props [".png"] ".[0-9a-z]+$", DragOver);
               (enabled_props [".png"] ".[0-9a-z]+$", DragLeave)]
              (initial three_files)).1 = false.
Proof.
  apply (drag_enter_leave_idle newRegExp_default
           (enabled_props [".png"] ".[0-9a-z]+$") (initial three_files)
           DragOver).
  - reflexivity.
  - right. reflexivity.
Defined.

(** C8: while [disabled] is set, neither a click on the button nor Enter
    or Space on it brings a click event to the file input: the picker
    does not open and the state stays as it was. The click handler is
    guarded by [disabled]; the key-down handler is not and still calls
    [click()], which does nothing on the input the component renders
    disabled. While [disabled] is not set, both paths reach the input:
    its click handler resets the stored value and the picker opens. *)
Theorem disabled_suppresses_activation newRegExp props s k :
  matches k [Enter; Space] = true →
  (disabled props = true →
   opens_picker (handle newRegExp props s Click).2 = false ∧
   opens_picker (handle newRegExp props s (KeyDown k)).2 = false ∧
   (handle newRegExp props s Click).1 = s ∧
   (handle newRegExp props s (KeyDown k)).1 = s) ∧
  (disabled props = false →
   opens_picker (handle newRegExp props s Click).2 = true ∧
   opens_picker (handle newRegExp props s (KeyDown k)).2 = true ∧
   (handle newRegExp props s Click).1 = set_value "" s ∧
   (handle newRegExp props s (KeyDown k)).1 = set_value "" s).
Proof.
  intros Hkey. rewrite handle_Click, handle_KeyDown, Hkey.
  split; intros ->; by repeat split.
Qed.

Lemma disabled_suppresses_activation_witness :
  opens_picker
    (handle newRegExp_default (disabled_props [".png"] ".[0-9a-z]+$")
       (initial three_files) (KeyDown Enter)).2 = false ∧
  opens_picker
    (handle newRegExp_default (enabled_props [".png"] ".[0-9a-z]+$")
       (initial three_files) (KeyDown Enter)).2 = true.
Proof.
  split.
  - apply (disabled_suppresses_activation newRegExp_default
             (disabled_props [".png"] ".[0-9a-z]+$") (initial three_files)
             Enter); reflexivity.
  - apply (disabled_suppresses_activation newRegExp_default
             (enabled_props [".png"] ".[0-9a-z]+$") (initial three_files)
             Enter); reflexivity.
Defined.

(** C9 as worded fails: after the click on the input, the selection of
    [a.png] and the change event that hands it to [onAddFiles], the input
    still stores the selected value; it was cleared by the click, before
    the selection. *)
Lemma value_kept_after_change :
  input_value
    (handle newRegExp_default (accepting [".png"])
       (set_value "C:\fakepath\old.png" (initial three_files)) InputClick).1
  = "" ∧
  added
    (native_pick newRegExp_default (accepting [".png"]) fakepath_a_png [1]
       (handle newRegExp_default (accepting [".png"])
          (set_value "C:\fakepath\old.png" (initial three_files))
          InputClick).1).2
  = [[1]] ∧
  input_value
    (native_pick newRegExp_default (accepting [".png"]) fakepath_a_png [1]
       (handle newRegExp_default (accepting [".png"])
          (set_value "C:\fakepath\old.png" (initial three_files))
          InputClick).1).1
  = fakepath_a_png.
Proof. repeat split; vm_compute; reflexivity. Qed.

(** C9, as the code has it: on a component that is not disabled, the
    stored value of the input is cleared by the click handler of the
    input, that is when the picker is about to open and before the
    selection; the change handler leaves the stored value in place. So a
    selection made after a click is always notified, also when it is the
    selection the input stored before the click, which without the click
    the browser would pass over in silence. *)
Theorem input_click_clears_value newRegExp props s path files :
  disabled props = false →
  path ≠ "" →
  input_value (handle newRegExp props s InputClick).1 = "" ∧
  (∀ s', input_value (handle newRegExp props s' (InputChange files)).1
         = input_value s') ∧
  native_pick newRegExp props path files
    (handle newRegExp props s InputClick).1
  = handle newRegExp props
      (set_value path (handle newRegExp props s InputClick).1)
      (InputChange files) ∧
  (input_value s = path → native_pick newRegExp props path files s = (s, [])).
Proof.
  intros Hen Hpath. rewrite handle_InputClick, Hen.
  split; [done|]. split; [|split].
  - intros s'. apply input_value_handleChange.
  - unfold native_pick. simpl. by destruct path.
  - intros Hsame. unfold native_pick. by rewrite Hsame, String.eqb_refl.
Qed.

Lemma input_click_clears_value_witness :
  added
    (native_pick newRegExp_default (accepting [".png"]) fakepath_a_png [1]
       (handle newRegExp_default (accepting [".png"])
          (set_value fakepath_a_png (initial three_files)) InputClick).1).2
  = [[1]].
Proof.
  destruct (input_click_clears_value newRegExp_default (accepting [".png"])
              (set_value fakepath_a_png (initial three_files))
              fakepath_a_png [1]) as (_ & _ & -> & _).
  - reflexivity.
  - discriminate.
  - vm_compute. reflexivity.
Defined.


(** * Properties beyond the claims *)

(** ** [validateFiles]: what it touches *)

Lemma validate_step_frame newRegExp props S acc curr h l :
  l ≠ curr →
  (validate_step newRegExp props S acc curr h).2 !! l = h !! l.
Proof.
  intros Hne.
  unfold validate_step, mbind, JS_bind, bind, deref, new_RegExp.
  destruct (h !! curr) as [f|] eqn:Hf; simpl; [|done].
  destruct (newRegExp (pattern props)) as [re|]; simpl; [|done].
  destruct (negb (test re (File.name f))); simpl; [done|].
  destruct (String_match (File.name f) re); simpl; [|done].
  destruct (has S _ || has S _); simpl; [done|].
  by rewrite lookup_alter_ne.
Qed.

Lemma reduce_frame newRegExp props S files : ∀ acc h l,
  l ∉ files →
  (reduce (validate_step newRegExp props S) files acc h).2 !! l = h !! l.
Proof.
  induction files as [|curr files IH]; intros acc h l Hl; simpl; [done|].
  apply not_elem_of_cons in Hl as [Hne Hl].
  unfold mbind, JS_bind, bind.
  pose proof (validate_step_frame newRegExp props S acc curr h l Hne) as Hstep.
  destruct (validate_step newRegExp props S acc curr h) as [[e|acc1] h1];
    simpl in *; [done|].
  by rewrite (IH acc1 h1 l Hl).
Qed.

(** X1: a record that is not among the transferred files is left exactly
    as it was, for every accept-list, pattern and host, also when
    [validateFiles] throws. *)
Theorem validateFiles_frame newRegExp props event h l :
  l ∉ transferredFiles event →
  (validateFiles newRegExp props event h).2 !! l = h !! l.
Proof.
  intros Hl. unfold validateFiles.
  destruct (length (accept props) =? 0); [done|]. by apply reduce_frame.
Qed.

Lemma validateFiles_frame_witness :
  (validateFiles newRegExp_default (accepting [".png"]) (drop_of [2; 3])
     three_files).2 !! 1 = three_files !! 1.
Proof.
  apply (validateFiles_frame newRegExp_default (accepting [".png"])
           (drop_of [2; 3]) three_files 1).
  compute_done.
Defined.

(** X2: [validateFiles] never changes the name or the MIME type of a
    record, and neither adds nor removes a record: the heap afterwards has
    the same references, each with the name and type it had. This holds on
    every path, also when it throws. *)
Theorem validateFiles_keeps_name_type newRegExp props event h :
  dom (validateFiles newRegExp props event h).2 = dom h ∧
  ∀ l,
    File.name <$> (validateFiles newRegExp props event h).2 !! l
    = File.name <$> h !! l ∧
    File.type <$> (validateFiles newRegExp props event h).2 !! l
    = File.type <$> h !! l.
Proof.
  assert (∀ l,
    File.name <$> (validateFiles newRegExp props event h).2 !! l
    = File.name <$> h !! l ∧
    File.type <$> (validateFiles newRegExp props event h).2 !! l
    = File.type <$> h !! l) as Hrec.
  { intros l.
    destruct (validateFiles_heap newRegExp props event h l) as [-> | ->];
      [done|]. by destruct (h !! l). }
  split; [|exact Hrec].
  apply set_eq. intros l. rewrite !elem_of_dom.
  destruct (Hrec l) as [Hname _].
  destruct ((validateFiles newRegExp props event h).2 !! l), (h !! l);
    simpl in Hname; try discriminate; split; intros [? ?]; by eexists.
Qed.

(** ** [validateFiles]: how runs compose *)

Lemma validate_step_inr newRegExp props S acc curr h acc1 h1 :
  validate_step newRegExp props S acc curr h = (inr acc1, h1) →
  is_Some (h !! curr) ∧ is_Some (newRegExp (pattern props)).
Proof.
  unfold validate_step, mbind, JS_bind, bind, deref, new_RegExp.
  destruct (h !! curr) as [f|]; simpl; [|discriminate].
  destruct (newRegExp (pattern props)) as [re|]; simpl; [|discriminate].
  intros _. split; by eexists.
Qed.

Lemma is_Some_validate_step newRegExp props S acc curr h l :
  is_Some ((validate_step newRegExp props S acc curr h).2 !! l)
  ↔ is_Some (h !! l).
Proof.
  destruct (validate_step_heap newRegExp props S acc curr h l) as [-> | ->];
    [done|]. by rewrite fmap_is_Some.
Qed.

(** A normal return tells that every element was defined, and, unless the
    list was empty, that the host compiled the pattern. *)
Lemma reduce_inr newRegExp props S files : ∀ acc h res h',
  reduce (validate_step newRegExp props S) files acc h = (inr res, h') →
  all_defined h files ∧
  (files ≠ [] → is_Some (newRegExp (pattern props))).
Proof.
  induction files as [|curr files IH]; intros acc h res h' Hrun.
  - split; [constructor|done].
  - simpl in Hrun. unfold mbind, JS_bind, bind in Hrun.
    destruct (validate_step newRegExp props S acc curr h) as [[e|acc1] h1]
      eqn:Hstep; [discriminate|].
    destruct (validate_step_inr _ _ _ _ _ _ _ _ Hstep) as [Hcurr Hre].
    destruct (IH acc1 h1 res h' Hrun) as [Hdef _].
    split; [|done]. constructor; [done|].
    eapply Forall_impl; [exact Hdef|]. intros l Hl; simpl in *.
    pose proof (is_Some_validate_step newRegExp props S acc curr h l) as Hiff.
    rewrite Hstep in Hiff. by apply Hiff.
Qed.

Lemma keeps_annotate re acceptList files h l :
  keeps re acceptList (annotate re acceptList files h) l
  = keeps re acceptList h l.
Proof.
  unfold keeps. rewrite lookup_annotate.
  destruct (h !! l) as [f|]; simpl; [|done].
  by destruct (_ && _).
Qed.

Lemma all_defined_annotate re acceptList files h fs :
  all_defined h fs → all_defined (annotate re acceptList files h) fs.
Proof.
  intros Hdef. eapply Forall_impl; [exact Hdef|]. intros l Hl; simpl in *.
  by rewrite lookup_annotate, fmap_is_Some.
Qed.

Lemma all_defined_annotate_inv re acceptList files h fs :
  all_defined (annotate re acceptList files h) fs → all_defined h fs.
Proof.
  intros Hdef. eapply Forall_impl; [exact Hdef|]. intros l Hl; simpl in *.
  by rewrite lookup_annotate, fmap_is_Some in Hl.
Qed.

Lemma annotate_annotate re acceptList fs1 fs2 h :
  annotate re acceptList fs2 (annotate re acceptList fs1 h)
  = annotate re acceptList (fs1 ++ fs2) h.
Proof.
  apply map_eq; intros l. rewrite !lookup_annotate.
  destruct (h !! l) as [f|]; simpl; [|done]. f_equal.
  rewrite (bool_decide_ext (l ∈ fs1 ++ fs2) (l ∈ fs1 ∨ l ∈ fs2))
    by apply elem_of_app.
  destruct (is_invalid (verdict re acceptList f)) eqn:Hv.
  - rewrite !andb_true_r.
    destruct (decide (l ∈ fs1)) as [H1|H1], (decide (l ∈ fs2)) as [H2|H2].
    + rewrite !bool_decide_true by tauto. simpl.
      by rewrite verdict_set_invalidFileType, Hv.
    + rewrite (bool_decide_true (l ∈ fs1)), (bool_decide_false (l ∈ fs2)),
        (bool_decide_true (_ ∨ _)) by tauto. done.
    + rewrite (bool_decide_false (l ∈ fs1)), (bool_decide_true (l ∈ fs2)),
        (bool_decide_true (_ ∨ _)) by tauto. simpl. by rewrite Hv.
    + rewrite (bool_decide_false (l ∈ fs1)), (bool_decide_false (l ∈ fs2)),
        (bool_decide_false (_ ∨ _)) by tauto. done.
  - rewrite !andb_false_r. by rewrite Hv, andb_false_r.
Qed.

Lemma annotate_sub re acceptList fs1 fs2 h :
  fs2 ⊆ fs1 →
  annotate re acceptList fs2 (annotate re acceptList fs1 h)
  = annotate re acceptList fs1 h.
Proof.
  intros Hsub. rewrite annotate_annotate.
  apply map_eq; intros l. rewrite !lookup_annotate.
  rewrite (bool_decide_ext (l ∈ fs1 ++ fs2) (l ∈ fs1)); [done|].
  rewrite elem_of_app. split; [intros [?|?]; [done|by apply Hsub]|by left].
Qed.

Lemma filter_keeps_annotate re acceptList files h (fs : list loc) :
  filter (λ l, keeps re acceptList (annotate re acceptList files h) l = true) fs
  = filter (λ l, keeps re acceptList h l = true) fs.
Proof. apply list_filter_iff. intros l. by rewrite keeps_annotate. Qed.

Lemma filter_filter_same {A} (P : A → Prop) `{!∀ x, Decision (P x)}
    (l : list A) :
  filter P (filter P l) = filter P l.
Proof. rewrite list_filter_filter. apply list_filter_iff. tauto. Qed.

Lemma transferredFiles_drop_of files : transferredFiles (drop_of files) = files.
Proof. reflexivity. Qed.

Lemma transferredFiles_change_of files :
  transferredFiles (change_of files) = files.
Proof. reflexivity. Qed.

(** A normal return, taken apart: either nothing had to be done, or the
    result is the closed form for the matcher the host made. *)
Lemma validateFiles_inr newRegExp props event h res h' :
  validateFiles newRegExp props event h = (inr res, h') →
  (res = transferredFiles event ∧ h' = h ∧
   (accept props = [] ∨ transferredFiles event = [])) ∨
  ∃ re,
    accept props ≠ [] ∧
    newRegExp (pattern props) = Some re ∧
    all_defined h (transferredFiles event) ∧
    res = filter (λ l, keeps re (accept props) h l = true)
            (transferredFiles event) ∧
    h' = annotate re (accept props) (transferredFiles event) h.
Proof.
  intros Hrun. destruct (decide (accept props = [])) as [Hacc|Hacc].
  - left. rewrite (validateFiles_empty _ _ _ _ Hacc) in Hrun.
    injection Hrun as <- <-. auto.
  - destruct (decide (transferredFiles event = [])) as [Hnil|Hnil].
    + left. unfold validateFiles in Hrun.
      rewrite length_eqb_0, bool_decide_false in Hrun by done.
      rewrite Hnil in *. injection Hrun as <- <-. auto.
    + right. pose proof Hrun as Hrun'. unfold validateFiles in Hrun'.
      rewrite length_eqb_0, bool_decide_false in Hrun' by done.
      destruct (reduce_inr _ _ _ _ _ _ _ _ Hrun') as [Hdef Hre].
      destruct (Hre Hnil) as [re Hre'].
      exists re. rewrite (validateFiles_classify _ _ re _ _ Hacc Hre' Hdef)
        in Hrun. injection Hrun as <- <-. auto.
Qed.

(** X3: classifying a result again changes nothing. When [validateFiles]
    returns a list, running it on that list, in the heap it left, returns
    the same list and leaves the heap as it is: no file is dropped or
    annotated on the second pass. *)
Theorem validateFiles_idempotent newRegExp props event h res h' :
  validateFiles newRegExp props event h = (inr res, h') →
  validateFiles newRegExp props (drop_of res) h' = (inr res, h') ∧
  validateFiles newRegExp props (change_of res) h' = (inr res, h').
Proof.
  intros Hrun.
  assert (∀ ev, transferredFiles ev = res →
            validateFiles newRegExp props ev h' = (inr res, h')) as Hagain.
  { intros ev Hev.
    destruct (validateFiles_inr _ _ _ _ _ _ Hrun)
      as [(-> & -> & Hcase) | (re & Hacc & Hre & Hdef & -> & ->)].
    - destruct Hcase as [Hacc|Hnil].
      + rewrite (validateFiles_empty _ _ _ _ Hacc). by rewrite Hev.
      + unfold validateFiles. rewrite Hev, Hnil.
        by destruct (length (accept props) =? 0).
    - rewrite (validateFiles_classify _ _ re ev _ Hacc Hre); rewrite Hev.
      + rewrite filter_keeps_annotate, filter_filter_same.
        rewrite annotate_sub; [done|].
        intros l Hl. by apply list_elem_of_filter in Hl as [_ Hl].
      + apply all_defined_annotate.
        eapply Forall_forall. intros l Hl.
        apply list_elem_of_filter in Hl as [_ Hl].
        by apply (proj1 (Forall_forall _ _) Hdef). }
  split; by apply Hagain.
Qed.

Lemma validateFiles_idempotent_witness :
  validateFiles newRegExp_default (accepting [".png"; "image/jpeg"])
    (drop_of [1; 2; 3])
    (<[2 := File.mk "b.txt" (Some "text/plain") (Some true)]> three_files)
  = (inr [1; 2; 3],
     <[2 := File.mk "b.txt" (Some "text/plain") (Some true)]> three_files).
Proof.
  apply (validateFiles_idempotent newRegExp_default
           (accepting [".png"; "image/jpeg"]) (drop_of [1; 2; 3]) three_files).
  vm_compute. reflexivity.
Defined.

(** X4: files transferred in two batches are classified as in one. When
    [validateFiles] returns on a first list, and then on a second list in
    the heap the first run left, it returns on the two lists joined, with
    the two results joined and the same final heap. *)
Theorem validateFiles_batches newRegExp props fs1 fs2 h r1 h1 r2 h2 :
  validateFiles newRegExp props (drop_of fs1) h = (inr r1, h1) →
  validateFiles newRegExp props (drop_of fs2) h1 = (inr r2, h2) →
  validateFiles newRegExp props (drop_of (fs1 ++ fs2)) h
  = (inr (r1 ++ r2), h2).
Proof.
  intros Hrun1 Hrun2.
  destruct (validateFiles_inr _ _ _ _ _ _ Hrun1)
    as [(-> & -> & Hcase) | (re & Hacc & Hre & Hdef1 & -> & ->)].
  - rewrite transferredFiles_drop_of in *.
    destruct Hcase as [Hacc | ->]; [|exact Hrun2].
    rewrite (validateFiles_empty _ _ _ _ Hacc) in Hrun2.
    rewrite (validateFiles_empty _ _ _ _ Hacc).
    by injection Hrun2 as <- <-.
  - rewrite transferredFiles_drop_of in *.
    destruct (validateFiles_inr _ _ _ _ _ _ Hrun2)
      as [(-> & -> & Hcase) | (re' & _ & Hre' & Hdef2 & -> & ->)];
      rewrite transferredFiles_drop_of in *.
    + destruct Hcase as [Hacc' | ->]; [contradiction|].
      rewrite !app_nil_r. exact Hrun1.
    + assert (re' = re) as -> by congruence.
      rewrite (validateFiles_classify _ _ re _ _ Hacc Hre);
        rewrite transferredFiles_drop_of.
      * by rewrite filter_app, filter_keeps_annotate, annotate_annotate.
      * apply Forall_app. split; [done|].
        by apply all_defined_annotate_inv in Hdef2.
Qed.

Lemma validateFiles_batches_witness :
  validateFiles newRegExp_default (accepting [".png"; "image/jpeg"])
    (drop_of ([1; 2] ++ [3])) three_files
  = (inr ([1; 2] ++ [3]),
     <[2 := File.mk "b.txt" (Some "text/plain") (Some true)]> three_files).
Proof.
  apply (validateFiles_batches newRegExp_default
           (accepting [".png"; "image/jpeg"]) [1; 2] [3] three_files [1; 2]
           (<[2 := File.mk "b.txt" (Some "text/plain") (Some true)]>
              three_files)); vm_compute; reflexivity.
Defined.

(** ** [validateFiles]: when it throws *)

Lemma reduce_app {A B} (f : B → A → JS B) (l1 l2 : list A) : ∀ acc h,
  reduce f (l1 ++ l2) acc h
  = match reduce f l1 acc h with
    | (inr acc1, h1) => reduce f l2 acc1 h1
    | (inl e, h1) => (inl e, h1)
    end.
Proof.
  induction l1 as [|x l1 IH]; intros acc h; simpl; [done|].
  unfold mbind, JS_bind, bind. destruct (f acc x h) as [[e|acc1] h1]; [done|].
  apply IH.
Qed.

(** X5: a pattern the host refuses. With a non-empty accept-list the
    pattern is compiled once per file, so an empty transfer still returns
    the empty list; with at least one file [validateFiles] throws on the
    first one, a [SyntaxError] (a [TypeError] when that element is
    undefined), and no record has been touched. *)
Theorem validateFiles_refused_pattern newRegExp props event h :
  accept props ≠ [] →
  newRegExp (pattern props) = None →
  (transferredFiles event = [] →
   validateFiles newRegExp props event h = (inr [], h)) ∧
  (∀ l rest, transferredFiles event = l :: rest →
   validateFiles newRegExp props event h
   = (inl (match h !! l with
           | Some _ => SyntaxError
           | None => TypeError
           end), h)).
Proof.
  intros Hacc Hre. unfold validateFiles.
  rewrite length_eqb_0, bool_decide_false by done. split.
  - by intros ->.
  - intros l rest ->. simpl.
    unfold mbind, JS_bind, bind, validate_step, mbind, JS_bind, bind, deref,
      new_RegExp.
    destruct (h !! l); simpl; [|done]. by rewrite Hre.
Qed.

Lemma validateFiles_refused_pattern_witness :
  validateFiles (λ _, None) (enabled_props [".png"] "(") (change_of [2; 1])
    three_files
  = (inl SyntaxError, three_files).
Proof.
  destruct (validateFiles_refused_pattern (λ _, None)
              (enabled_props [".png"] "(") (change_of [2; 1]) three_files)
    as [_ Hthrow]; [discriminate|reflexivity|].
  exact (Hthrow 2 [1] eq_refl).
Defined.

(** X6: an undefined element among the files. [validateFiles] throws a
    [TypeError] when it reaches it; the files listed before it have been
    classified by then, and the invalid ones among them stay annotated:
    the annotation is not rolled back. *)
Theorem validateFiles_undefined_element newRegExp props re event h pre l post :
  accept props ≠ [] →
  newRegExp (pattern props) = Some re →
  transferredFiles event = pre ++ l :: post →
  all_defined h pre →
  h !! l = None →
  validateFiles newRegExp props event h
  = (inl TypeError, annotate re (accept props) pre h).
Proof.
  intros Hacc Hre Hfiles Hdef Hl. unfold validateFiles.
  rewrite length_eqb_0, bool_decide_false by done.
  rewrite Hfiles, reduce_app.
  rewrite (reduce_validate_step newRegExp props re pre [] h Hre Hdef). simpl.
  unfold mbind, JS_bind, bind, validate_step, mbind, JS_bind, bind, deref.
  by rewrite lookup_annotate, Hl.
Qed.

Lemma validateFiles_undefined_element_witness :
  validateFiles newRegExp_default (accepting [".png"]) (drop_of [2; 9; 1])
    three_files
  = (inl TypeError,
     annotate defaultRegExp [".png"] [2] three_files).
Proof.
  apply (validateFiles_undefined_element newRegExp_default
           (accepting [".png"]) defaultRegExp (drop_of [2; 9; 1]) three_files
           [2] 9 [1]).
  - discriminate.
  - reflexivity.
  - reflexivity.
  - repeat constructor; by eexists.
  - reflexivity.
Defined.

(** ** [validateFiles]: what decides the verdict *)

Lemma lower_char_idemp c : lower_char (lower_char c) = lower_char c.
Proof. destruct c as [[] [] [] [] [] [] [] []]; reflexivity. Qed.

Lemma toLowerCase_idemp s : toLowerCase (toLowerCase s) = toLowerCase s.
Proof.
  induction s as [|c s IH]; simpl; [done|]. by rewrite lower_char_idemp, IH.
Qed.

(** X7: the accept-list is compared as written; only the token taken from
    the file name is lowercased. So an entry with a capital letter in it
    (one that lowercasing changes) never matches an extension: when every
    entry is of that kind and the MIME type is not listed, each file whose
    name matches the pattern is kept and annotated invalid. *)
Theorem validateFiles_capital_entries newRegExp props re event h l f ext :
  newRegExp (pattern props) = Some re →
  all_defined h (transferredFiles event) →
  l ∈ transferredFiles event →
  h !! l = Some f →
  exec re (File.name f) = Some ext →
  accept props ≠ [] →
  Forall (λ entry, toLowerCase entry ≠ entry) (accept props) →
  default "" (File.type f) ∉ accept props →
  ∃ res h',
    validateFiles newRegExp props event h = (inr res, h') ∧
    l ∈ res ∧
    h' !! l = Some (File.set_invalidFileType f).
Proof.
  intros Hre Hdef Hl Hf Hext Hacc Hcap Hmime. eexists _, _.
  split; [exact (validateFiles_classify _ _ re _ _ Hacc Hre Hdef)|].
  destruct (classify_matching_file re (accept props) _ h l f ext Hl Hf Hext)
    as [Hk Hrec].
  split; [by apply list_elem_of_filter|].
  rewrite Hrec, (bool_decide_false (default "" (File.type f) ∈ accept props))
    by done.
  rewrite bool_decide_false; [done|].
  intros Hin. apply (proj1 (Forall_forall _ _) Hcap _ Hin).
  apply toLowerCase_idemp.
Qed.

Lemma validateFiles_capital_entries_witness :
  ∃ res h',
    validateFiles newRegExp_default (accepting [".PNG"]) (drop_of [5])
      {[ 5 := PHOTO_PNG (Some "image/png") ]} = (inr res, h') ∧
    5 ∈ res ∧
    h' !! 5 = Some (File.set_invalidFileType (PHOTO_PNG (Some "image/png"))).
Proof.
  apply (validateFiles_capital_entries newRegExp_default (accepting [".PNG"])
           defaultRegExp (drop_of [5])
           {[ 5 := PHOTO_PNG (Some "image/png") ]} 5
           (PHOTO_PNG (Some "image/png")) ".PNG").
  - reflexivity.
  - repeat constructor; by eexists.
  - compute_done.
  - reflexivity.
  - reflexivity.
  - discriminate.
  - repeat constructor. discriminate.
  - compute_done.
Defined.

Lemma same_name_type_lookup h1 h2 l :
  same_name_type h1 h2 →
  match h1 !! l, h2 !! l with
  | Some f1, Some f2 =>
      File.name f1 = File.name f2 ∧ File.type f1 = File.type f2
  | None, None => True
  | _, _ => False
  end.
Proof.
  intros Hsame. destruct (Hsame l) as [Hn Ht].
  destruct (h1 !! l), (h2 !! l); simpl in *; try discriminate; [|done].
  split; congruence.
Qed.

Lemma same_name_type_alter h1 h2 curr :
  same_name_type h1 h2 →
  same_name_type (alter File.set_invalidFileType curr h1)
    (alter File.set_invalidFileType curr h2).
Proof.
  intros Hsame l. destruct (Hsame l) as [Hn Ht].
  destruct (decide (l = curr)) as [->|Hne].
  - rewrite !lookup_alter_eq.
    destruct (h1 !! curr), (h2 !! curr); simpl in *; try discriminate; done.
  - by rewrite !lookup_alter_ne.
Qed.

Lemma validate_step_same newRegExp props S acc curr h1 h2 :
  same_name_type h1 h2 →
  (validate_step newRegExp props S acc curr h1).1
  = (validate_step newRegExp props S acc curr h2).1 ∧
  same_name_type (validate_step newRegExp props S acc curr h1).2
    (validate_step newRegExp props S acc curr h2).2.
Proof.
  intros Hsame. pose proof (same_name_type_lookup h1 h2 curr Hsame) as Hcurr.
  unfold validate_step, mbind, JS_bind, bind, deref, new_RegExp.
  destruct (h1 !! curr) as [f1|], (h2 !! curr) as [f2|]; simpl;
    try contradiction; [|done].
  destruct Hcurr as [-> ->].
  destruct (newRegExp (pattern props)) as [re|]; simpl; [|done].
  destruct (negb (test re (File.name f2))); simpl; [done|].
  destruct (String_match (File.name f2) re); simpl; [|done].
  destruct (has S _ || has S _); simpl; [done|].
  split; [done|]. by apply same_name_type_alter.
Qed.

Lemma reduce_same newRegExp props S files : ∀ acc h1 h2,
  same_name_type h1 h2 →
  (reduce (validate_step newRegExp props S) files acc h1).1
  = (reduce (validate_step newRegExp props S) files acc h2).1.
Proof.
  induction files as [|curr files IH]; intros acc h1 h2 Hsame; simpl; [done|].
  unfold mbind, JS_bind, bind.
  destruct (validate_step_same newRegExp props S acc curr h1 h2 Hsame)
    as [Hres Hheaps].
  destruct (validate_step newRegExp props S acc curr h1) as [r1 k1],
    (validate_step newRegExp props S acc curr h2) as [r2 k2]; simpl in *.
  subst r2. destruct r1 as [e|acc1]; [done|]. by apply IH.
Qed.

Lemma same_name_type_without_annotation h :
  same_name_type h (without_annotation <$> h).
Proof. intros l. rewrite lookup_fmap. by destruct (h !! l). Qed.

(** X8: annotations the records already carry have no say in the
    classification. Two heaps whose records agree on name and MIME type
    give the same outcome, the same list or the same exception; in
    particular a record found invalid earlier is judged afresh. *)
Theorem validateFiles_ignores_annotations newRegExp props event h1 h2 :
  same_name_type h1 h2 →
  (validateFiles newRegExp props event h1).1
  = (validateFiles newRegExp props event h2).1.
Proof.
  intros Hsame. unfold validateFiles.
  destruct (length (accept props) =? 0); [done|]. by apply reduce_same.
Qed.

Lemma validateFiles_ignores_annotations_witness :
  (validateFiles newRegExp_default (accepting [".png"]) (drop_of [7])
     {[ 7 := old_png ]}).1
  = (validateFiles newRegExp_default (accepting [".png"]) (drop_of [7])
       (without_annotation <$> {[ 7 := old_png ]})).1.
Proof.
  apply (validateFiles_ignores_annotations newRegExp_default
           (accepting [".png"]) (drop_of [7]) {[ 7 := old_png ]}
           (without_annotation <$> {[ 7 := old_png ]})).
  apply same_name_type_without_annotation.
Defined.

Lemma same_name_type_sym h1 h2 : same_name_type h1 h2 → same_name_type h2 h1.
Proof. intros Hsame l. destruct (Hsame l). by split. Qed.

Lemma same_name_type_trans h1 h2 h3 :
  same_name_type h1 h2 → same_name_type h2 h3 → same_name_type h1 h3.
Proof.
  intros H12 H23 l. destruct (H12 l) as [-> ->], (H23 l) as [-> ->]. by split.
Qed.

Lemma same_name_type_validate_step newRegExp props S acc curr h :
  same_name_type h (validate_step newRegExp props S acc curr h).2.
Proof.
  intros l.
  destruct (validate_step_heap newRegExp props S acc curr h l) as [-> | ->];
    [done|]. by destruct (h !! l).
Qed.

(** Which list a turn of the reducer returns does not depend on the set
    of accepted types. *)
Lemma validate_step_result newRegExp p1 p2 S1 S2 acc curr h1 h2 :
  pattern p1 = pattern p2 →
  same_name_type h1 h2 →
  (validate_step newRegExp p1 S1 acc curr h1).1
  = (validate_step newRegExp p2 S2 acc curr h2).1.
Proof.
  intros Hpat Hsame.
  pose proof (same_name_type_lookup h1 h2 curr Hsame) as Hcurr.
  unfold validate_step, mbind, JS_bind, bind, deref, new_RegExp.
  rewrite Hpat.
  destruct (h1 !! curr) as [f1|], (h2 !! curr) as [f2|]; simpl;
    try contradiction; [|done].
  destruct Hcurr as [-> ->].
  destruct (newRegExp (pattern p2)) as [re|]; simpl; [|done].
  destruct (negb (test re (File.name f2))); simpl; [done|].
  destruct (String_match (File.name f2) re); simpl; [|done].
  by destruct (has S1 _ || has S1 _), (has S2 _ || has S2 _).
Qed.

Lemma reduce_result newRegExp p1 p2 S1 S2 files : ∀ acc h1 h2,
  pattern p1 = pattern p2 →
  same_name_type h1 h2 →
  (reduce (validate_step newRegExp p1 S1) files acc h1).1
  = (reduce (validate_step newRegExp p2 S2) files acc h2).1.
Proof.
  induction files as [|curr files IH]; intros acc h1 h2 Hpat Hsame; simpl;
    [done|].
  unfold mbind, JS_bind, bind.
  pose proof (validate_step_result newRegExp p1 p2 S1 S2 acc curr h1 h2
                Hpat Hsame) as Hres.
  pose proof (same_name_type_validate_step newRegExp p1 S1 acc curr h1) as Hk1.
  pose proof (same_name_type_validate_step newRegExp p2 S2 acc curr h2) as Hk2.
  destruct (validate_step newRegExp p1 S1 acc curr h1) as [r1 k1],
    (validate_step newRegExp p2 S2 acc curr h2) as [r2 k2]; simpl in *.
  subst r2. destruct r1 as [e|acc1]; [done|]. apply IH; [done|].
  eapply same_name_type_trans; [apply same_name_type_sym, Hk1|].
  exact (same_name_type_trans _ _ _ Hsame Hk2).
Qed.

(** X20: which files are kept is decided by the pattern alone. Two
    non-empty accept-lists give the same outcome for the same pattern, the
    same list in the same order or the same exception; what is accepted
    only shows in the annotations. *)
Theorem validateFiles_kept_by_pattern newRegExp p1 p2 event h :
  accept p1 ≠ [] →
  accept p2 ≠ [] →
  pattern p1 = pattern p2 →
  (validateFiles newRegExp p1 event h).1
  = (validateFiles newRegExp p2 event h).1.
Proof.
  intros Hacc1 Hacc2 Hpat. unfold validateFiles.
  rewrite !length_eqb_0, !bool_decide_false by done.
  by apply reduce_result.
Qed.

Lemma validateFiles_kept_by_pattern_witness :
  (validateFiles newRegExp_default (accepting [".png"]) (drop_of [1; 2; 3])
     three_files).1
  = (validateFiles newRegExp_default (accepting [".txt"; "image/jpeg"])
       (drop_of [1; 2; 3]) three_files).1.
Proof.
  apply (validateFiles_kept_by_pattern newRegExp_default (accepting [".png"])
           (accepting [".txt"; "image/jpeg"]) (drop_of [1; 2; 3]) three_files);
    [discriminate|discriminate|reflexivity].
Defined.

Lemma is_invalid_verdict_mono re a1 a2 f :
  a1 ⊆ a2 →
  is_invalid (verdict re a2 f) = true → is_invalid (verdict re a1 f) = true.
Proof.
  intros Hsub. unfold verdict.
  destruct (exec re (File.name f)) as [ext|]; [|done].
  destruct (bool_decide (default "" (File.type f) ∈ a1)) eqn:Hm1.
  { apply bool_decide_eq_true in Hm1.
    by rewrite (bool_decide_true (default "" (File.type f) ∈ a2))
      by by apply Hsub. }
  destruct (bool_decide (toLowerCase ext ∈ a1)) eqn:He1; [|done].
  apply bool_decide_eq_true in He1.
  rewrite (bool_decide_true (toLowerCase ext ∈ a2)) by by apply Hsub.
  by rewrite orb_true_r.
Qed.

(** X21: a longer accept-list only accepts more. When every entry of one
    non-empty accept-list is also in another, a file that the first leaves
    without a new annotation is left so by the second too. *)
Theorem validateFiles_accept_monotone newRegExp p1 p2 re event h l f :
  accept p1 ≠ [] →
  accept p1 ⊆ accept p2 →
  pattern p1 = pattern p2 →
  newRegExp (pattern p1) = Some re →
  all_defined h (transferredFiles event) →
  h !! l = Some f →
  (validateFiles newRegExp p1 event h).2 !! l = Some f →
  (validateFiles newRegExp p2 event h).2 !! l = Some f.
Proof.
  intros Hacc1 Hsub Hpat Hre Hdef Hf.
  assert (accept p2 ≠ []) as Hacc2.
  { intros E. destruct (accept p1) as [|x a1] eqn:E1; [done|].
    assert (x ∈ accept p2) as Hx by (apply Hsub; by left).
    rewrite E in Hx. inv Hx. }
  rewrite (validateFiles_classify _ _ re _ _ Hacc1 Hre Hdef).
  rewrite Hpat in Hre.
  rewrite (validateFiles_classify _ _ re _ _ Hacc2 Hre Hdef). simpl.
  rewrite !lookup_annotate, Hf. simpl.
  destruct (bool_decide (l ∈ transferredFiles event)); simpl; [|done].
  destruct (is_invalid (verdict re (accept p2) f)) eqn:Hv2; [|done].
  by rewrite (is_invalid_verdict_mono re _ _ f Hsub Hv2).
Qed.

Lemma validateFiles_accept_monotone_witness :
  (validateFiles newRegExp_default (accepting [".png"; ".jpg"])
     (drop_of [1; 2; 3]) three_files).2 !! 1
  = Some (File.mk "a.png" (Some "") None).
Proof.
  apply (validateFiles_accept_monotone newRegExp_default (accepting [".png"])
           (accepting [".png"; ".jpg"]) defaultRegExp (drop_of [1; 2; 3])
           three_files 1 (File.mk "a.png" (Some "") None)).
  - discriminate.
  - intros x Hx. apply elem_of_cons. left.
    apply elem_of_cons in Hx as [Hx|Hx]; [done|]. inv Hx.
  - reflexivity.
  - reflexivity.
  - repeat constructor; by eexists.
  - reflexivity.
  - vm_compute. reflexivity.
Defined.

(** ** The default pattern *)

Lemma all_chars_app p (s1 s2 : string) :
  all_chars p (s1 ++ s2)%string = all_chars p s1 && all_chars p s2.
Proof.
  induction s1 as [|c s1 IH]; [done|].
  change (all_chars p (String c (s1 ++ s2)%string)
          = all_chars p (String c s1) && all_chars p s2).
  simpl. by rewrite IH, andb_assoc.
Qed.

Lemma is_0_9a_z_i_not_line_terminator c :
  is_0_9a_z_i c = true → is_line_terminator c = false.
Proof. destruct c as [[] [] [] [] [] [] [] []]; vm_compute; congruence. Qed.

Lemma matches_here_cons c rest :
  matches_here (String c rest)
  = negb (is_line_terminator c) && negb (String.eqb rest EmptyString)
    && all_chars is_0_9a_z_i rest.
Proof. reflexivity. Qed.

Lemma eqb_empty_false (s : string) :
  s ≠ ""%string → String.eqb s EmptyString = false.
Proof. by destruct s. Qed.

Lemma default_exec_segment pre c rest :
  is_0_9a_z_i c = false →
  is_line_terminator c = false →
  rest ≠ ""%string →
  all_chars is_0_9a_z_i rest = true →
  default_exec (pre ++ String c rest)%string = Some (String c rest).
Proof.
  intros Hc Hterm Hrest Halnum.
  induction pre as [|a pre IH].
  - change (default_exec (String c rest) = Some (String c rest)).
    rewrite default_exec_cons, matches_here_cons.
    by rewrite Hterm, (eqb_empty_false rest Hrest), Halnum.
  - change (default_exec (String a (pre ++ String c rest)%string)
            = Some (String c rest)).
    rewrite default_exec_cons, matches_here_cons, all_chars_app. simpl.
    by rewrite Hc, !andb_false_r.
Qed.

(** X9: the token is the last segment of the name. When the name ends in
    one code unit outside [[0-9A-Za-z]] (a dot, say; not a line
    terminator) followed by one or more code units of [[0-9A-Za-z]], the
    default pattern yields exactly that ending, separator included,
    whatever comes before it: [archive.tar.GZ] gives [.GZ]. *)
Theorem default_exec_last_segment pre c rest :
  is_0_9a_z_i c = false →
  is_line_terminator c = false →
  rest ≠ ""%string →
  all_chars is_0_9a_z_i rest = true →
  default_exec (pre ++ String c rest)%string = Some (String c rest).
Proof. apply default_exec_segment. Qed.

Lemma default_exec_last_segment_witness :
  default_exec "archive.tar.GZ" = Some ".GZ".
Proof.
  apply (default_exec_last_segment "archive.tar" "."%char "GZ");
    [reflexivity|reflexivity|discriminate|reflexivity].
Defined.

(** X10: a name without any separator is not excluded. When the name
    consists of two or more code units of [[0-9A-Za-z]] and nothing else,
    the unescaped dot of the default pattern takes the first of them and
    the token is the whole name: [README] gives [README]. *)
Theorem default_exec_no_separator s :
  all_chars is_0_9a_z_i s = true →
  2 ≤ String.length s →
  default_exec s = Some s.
Proof.
  intros Halnum Hlen.
  destruct s as [|a [|b rest]]; simpl in Hlen; [lia|lia|].
  rewrite default_exec_cons, matches_here_cons.
  change (all_chars is_0_9a_z_i (String a (String b rest)))
    with (is_0_9a_z_i a && all_chars is_0_9a_z_i (String b rest)) in Halnum.
  apply andb_true_iff in Halnum as [Ha Hrest].
  by rewrite (is_0_9a_z_i_not_line_terminator a Ha), Hrest.
Qed.

Lemma default_exec_no_separator_witness : default_exec "README" = Some "README".
Proof.
  apply (default_exec_no_separator "README"); [reflexivity|simpl; lia].
Defined.

(** X11: the names the default pattern does not match. A name of at most
    one code unit, and a name whose last code unit is outside
    [[0-9A-Za-z]] (as in [notes.txt~] or [report.]), yield no token. *)
Theorem default_exec_no_match s :
  String.length s ≤ 1 ∨
  (∃ pre c, s = (pre ++ String c "")%string ∧ is_0_9a_z_i c = false) →
  default_exec s = None.
Proof.
  intros [Hlen | (pre & c & -> & Hc)].
  - destruct s as [|a [|b rest]]; simpl in Hlen; [done| |lia].
    rewrite default_exec_cons, matches_here_cons. simpl.
    by rewrite andb_false_r.
  - induction pre as [|a pre IH].
    + change (default_exec (String c "") = None).
      rewrite default_exec_cons, matches_here_cons. simpl.
      by rewrite andb_false_r.
    + change (default_exec (String a (pre ++ String c "")%string) = None).
      rewrite default_exec_cons, matches_here_cons, all_chars_app. simpl.
      by rewrite Hc, !andb_false_r.
Qed.

Lemma default_exec_no_match_witness : default_exec "notes.txt~" = None.
Proof.
  apply (default_exec_no_match "notes.txt~").
  right. exists "notes.txt", "~"%char. split; reflexivity.
Defined.

(** X12: the shape of a token. Whatever the default pattern returns is an
    ending of the name made of one code unit that is not a line terminator
    and then one or more code units of [[0-9A-Za-z]]; and it is the
    longest ending of that shape, since the search starts from the left. *)
Theorem default_exec_token s m :
  default_exec s = Some m →
  ∃ pre c rest,
    s = (pre ++ m)%string ∧
    m = String c rest ∧
    is_line_terminator c = false ∧
    rest ≠ ""%string ∧
    all_chars is_0_9a_z_i rest = true ∧
    ∀ p1 p2, pre = (p1 ++ p2)%string → p2 ≠ ""%string →
      matches_here (p2 ++ m)%string = false.
Proof.
  intros Hexec.
  destruct (default_exec_suffix s m Hexec) as [Hhere [pre ->]].
  destruct m as [|c rest]; [discriminate|].
  rewrite matches_here_cons in Hhere.
  apply andb_true_iff in Hhere as [Hhere Halnum].
  apply andb_true_iff in Hhere as [Hterm Hrest].
  exists pre, c, rest. split; [done|]. split; [done|].
  split; [by destruct (is_line_terminator c)|].
  split; [by intros ->|]. split; [done|].
  by apply default_exec_leftmost.
Qed.

Lemma default_exec_token_witness :
  ∃ pre c rest,
    "PHOTO.PNG" = (pre ++ ".PNG")%string ∧
    ".PNG" = String c rest ∧
    is_line_terminator c = false ∧
    rest ≠ ""%string ∧
    all_chars is_0_9a_z_i rest = true ∧
    ∀ p1 p2, pre = (p1 ++ p2)%string → p2 ≠ ""%string →
      matches_here (p2 ++ ".PNG")%string = false.
Proof.
  apply (default_exec_token "PHOTO.PNG" ".PNG"). reflexivity.
Defined.

Lemma toLowerCase_dot ext :
  toLowerCase (String "." ext) = String "." (toLowerCase ext).
Proof. reflexivity. Qed.

(** X13: extension matching under the default pattern, for every name
    with a dot extension. A file whose name ends in a dot and one or more
    code units of [[0-9A-Za-z]] is always kept; it is left as it was when
    its MIME type, or the dot with the lowercased extension, is in the
    accept-list, and annotated invalid otherwise. *)
Theorem validateFiles_dot_extension newRegExp props event h l f base ext :
  newRegExp (pattern defaultProps) = Some defaultRegExp →
  pattern props = pattern defaultProps →
  accept props ≠ [] →
  all_defined h (transferredFiles event) →
  l ∈ transferredFiles event →
  h !! l = Some f →
  File.name f = (base ++ String "." ext)%string →
  ext ≠ ""%string →
  all_chars is_0_9a_z_i ext = true →
  ∃ res h',
    validateFiles newRegExp props event h = (inr res, h') ∧
    l ∈ res ∧
    (default "" (File.type f) ∈ accept props
     ∨ String "." (toLowerCase ext) ∈ accept props →
     h' !! l = Some f) ∧
    (¬ (default "" (File.type f) ∈ accept props
        ∨ String "." (toLowerCase ext) ∈ accept props) →
     h' !! l = Some (File.set_invalidFileType f)).
Proof.
  intros Hhost Hpat Hacc Hdef Hl Hf Hname Hext Halnum.
  rewrite <- Hpat in Hhost. eexists _, _.
  split; [exact (validateFiles_classify _ _ _ _ _ Hacc Hhost Hdef)|].
  assert (exec defaultRegExp (File.name f) = Some (String "." ext)) as Htoken.
  { rewrite Hname. by apply default_exec_segment. }
  destruct (classify_matching_file defaultRegExp (accept props) _ h l f
              (String "." ext) Hl Hf Htoken) as [Hk Hrec].
  split; [by apply list_elem_of_filter|].
  rewrite Hrec, toLowerCase_dot. split.
  - intros Hin. rewrite orb_true_intro; [done|].
    destruct Hin as [Hin|Hin]; [left|right]; by apply bool_decide_eq_true.
  - intros Hnot. rewrite (proj2 (orb_false_iff _ _)); [done|].
    split; apply bool_decide_eq_false; tauto.
Qed.

Lemma validateFiles_dot_extension_witness :
  ∃ res h',
    validateFiles newRegExp_default (accepting [".gz"]) (drop_of [4; 1])
      four_files = (inr res, h') ∧
    4 ∈ res ∧
    h' !! 4 = Some (File.mk "archive.tar.GZ" (Some "application/gzip") None).
Proof.
  destruct (validateFiles_dot_extension newRegExp_default (accepting [".gz"])
              (drop_of [4; 1]) four_files 4
              (File.mk "archive.tar.GZ" (Some "application/gzip") None)
              "archive.tar" "GZ")
    as (res & h' & Hrun & Hin & Hkeep & _).
  - reflexivity.
  - reflexivity.
  - discriminate.
  - repeat constructor; by eexists.
  - compute_done.
  - reflexivity.
  - reflexivity.
  - discriminate.
  - reflexivity.
  - exists res, h'. split; [exact Hrun|]. split; [exact Hin|].
    apply Hkeep. right. compute_done.
Defined.


(** ** The component over a session *)

Lemma run_app newRegExp evs1 evs2 s :
  run newRegExp (evs1 ++ evs2) s
  = let '(s1, c1) := run newRegExp evs1 s in
    let '(s2, c2) := run newRegExp evs2 s1 in
    (s2, c1 ++ c2).
Proof.
  revert s. induction evs1 as [|[p e] evs1 IH]; intros s; simpl.
  - by destruct (run newRegExp evs2 s).
  - destruct (handle newRegExp p s e) as [s1 c1]. rewrite IH.
    destruct (run newRegExp evs1 s1) as [s2 c2].
    destruct (run newRegExp evs2 s2) as [s3 c3]. by rewrite app_assoc.
Qed.

Lemma heap_handleChange newRegExp props event s :
  heap (handleChange newRegExp props event s).1
  = (validateFiles newRegExp props event (heap s)).2.
Proof.
  unfold handleChange. by destruct (validateFiles _ _ _ _) as [[?|?] ?].
Qed.

Lemma heap_handle newRegExp props s e l :
  heap (handle newRegExp props s e).1 !! l = heap s !! l ∨
  heap (handle newRegExp props s e).1 !! l
  = File.set_invalidFileType <$> heap s !! l.
Proof.
  destruct e as [ | | | files | k | | | files]; click_paths; simpl;
    try (by left); try (destruct (disabled props); by left).
  - destruct (disabled props); [by left|].
    pose proof (heap_handleChange newRegExp props (drop_of files)
                  (setActive false s)) as Hheap.
    destruct (handleChange _ _ _ _) as [s1 c1]. simpl in *. rewrite Hheap.
    apply validateFiles_heap.
  - by destruct k, (disabled props); left.
  - rewrite heap_handleChange. apply validateFiles_heap.
Qed.

(** X14: what a whole session can do to a file. After any sequence of
    events, under any props and host, every record is the record it was
    at the start, or that record with [invalidFileType = true]: no handler
    renames a file, changes its type, removes it or clears an annotation. *)
Theorem run_heap newRegExp evs s l :
  heap (run newRegExp evs s).1 !! l = heap s !! l ∨
  heap (run newRegExp evs s).1 !! l
  = File.set_invalidFileType <$> heap s !! l.
Proof.
  revert s. induction evs as [|[p e] evs IH]; intros s; simpl; [by left|].
  pose proof (heap_handle newRegExp p s e l) as Hstep.
  destruct (handle newRegExp p s e) as [s1 c1]. specialize (IH s1).
  destruct (run newRegExp evs s1) as [s2 c2]. simpl in *.
  destruct IH as [-> | ->], Hstep as [-> | ->]; auto.
  right. by destruct (heap s !! l).
Qed.

Lemma uncaughts_app c1 c2 : uncaughts (c1 ++ c2) = uncaughts c1 ++ uncaughts c2.
Proof.
  induction c1 as [|c c1 IH]; [done|]. destruct c; simpl; by rewrite ?IH.
Qed.

Lemma outcome_handleChange newRegExp props event s :
  length (added (handleChange newRegExp props event s).2)
  + length (uncaughts (handleChange newRegExp props event s).2) = 1.
Proof.
  unfold handleChange. by destruct (validateFiles _ _ _ _) as [[?|?] ?].
Qed.

Lemma outcome_handle newRegExp props s e :
  length (added (handle newRegExp props s e).2)
  + length (uncaughts (handle newRegExp props s e).2)
  = if reaches_handleChange (props, e) then 1 else 0.
Proof.
  unfold reaches_handleChange.
  destruct e as [ | | | files | k | | | files]; click_paths; simpl;
    try done; try (by destruct (disabled props)).
  - destruct (disabled props); [done|]. simpl.
    pose proof (outcome_handleChange newRegExp props (drop_of files)
                  (setActive false s)) as Hone.
    by destruct (handleChange _ _ _ _) as [s1 c1].
  - by destruct k, (disabled props).
  - apply outcome_handleChange.
Qed.

(** X15: one outcome per gesture. Over any session, each drop on props
    that are not disabled and each change of the input ends in exactly one
    of two ways, a call of [onAddFiles] or an exception leaving the
    handler; no other event produces either. *)
Theorem run_outcomes newRegExp evs s :
  length (added (run newRegExp evs s).2)
  + length (uncaughts (run newRegExp evs s).2)
  = length (List.filter reaches_handleChange evs).
Proof.
  revert s. induction evs as [|[p e] evs IH]; intros s; simpl; [done|].
  pose proof (outcome_handle newRegExp p s e) as Hstep.
  destruct (handle newRegExp p s e) as [s1 c1]. specialize (IH s1).
  destruct (run newRegExp evs s1) as [s2 c2]. simpl in *.
  rewrite added_app, uncaughts_app, !length_app.
  destruct (reaches_handleChange (p, e)); simpl; lia.
Qed.

Lemma isActive_handle_still newRegExp props s e :
  moves_drag_state (props, e) = false →
  isActive (handle newRegExp props s e).1 = isActive s.
Proof.
  unfold moves_drag_state.
  destruct e as [ | | | files | k | | | files]; click_paths; simpl; try done;
    try (destruct (disabled props); by try discriminate).
  - by destruct k, (disabled props).
  - intros _. apply isActive_handleChange.
Qed.

Lemma isActive_run_still newRegExp evs : ∀ s,
  Forall (λ pe, moves_drag_state pe = false) evs →
  isActive (run newRegExp evs s).1 = isActive s.
Proof.
  induction evs as [|[p e] evs IH]; intros s Hstill; simpl; [done|].
  apply Forall_cons in Hstill as [He Hstill].
  pose proof (isActive_handle_still newRegExp p s e He) as Hstep.
  destruct (handle newRegExp p s e) as [s1 c1]. specialize (IH s1 Hstill).
  destruct (run newRegExp evs s1) as [s2 c2]. simpl in *. congruence.
Qed.

(** X16: the drag state is set by the last drag event that was handled
    while not disabled, and by nothing else. After a drag-over on props
    that are not disabled it is ACTIVE, after a drag-leave or a drop IDLE,
    whatever went before; and it stays so through key presses, clicks,
    changes of the input and every event received while disabled. *)
Theorem run_drag_state newRegExp evs1 p e evs2 s :
  disabled p = false →
  has_drag_handler e = true →
  Forall (λ pe, moves_drag_state pe = false) evs2 →
  isActive (run newRegExp (evs1 ++ (p, e) :: evs2) s).1
  = match e with DragOver => true | _ => false end.
Proof.
  intros Hen He Hstill. rewrite run_app.
  destruct (run newRegExp evs1 s) as [s1 c1]. simpl.
  assert (isActive (handle newRegExp p s1 e).1
          = match e with DragOver => true | _ => false end) as Hstep.
  { destruct e as [ | | | files | k | | | files]; try discriminate; simpl;
      rewrite Hen; simpl; [done|done|].
    pose proof (isActive_handleChange newRegExp p (drop_of files)
                  (setActive false s1)) as Hact.
    by destruct (handleChange _ _ _ _) as [s2 c2]. }
  destruct (handle newRegExp p s1 e) as [s2 c2].
  pose proof (isActive_run_still newRegExp evs2 s2 Hstill) as Hrest.
  destruct (run newRegExp evs2 s2) as [s3 c3]. simpl in *. congruence.
Qed.

Lemma run_drag_state_witness :
  isActive
    (run newRegExp_default
       ([(accepting [".png"], DragLeave)]
        ++ (accepting [".png"], DragOver)
           :: [(accepting [".png"], KeyDown Enter);
               (disabled_props [".png"] ".[0-9a-z]+$", Drop [1]);
               (accepting [".png"], InputChange [2])])
       (initial three_files)).1
  = true.
Proof.
  apply (run_drag_state newRegExp_default [(accepting [".png"], DragLeave)]
           (accepting [".png"]) DragOver
           [(accepting [".png"], KeyDown Enter);
            (disabled_props [".png"] ".[0-9a-z]+$", Drop [1]);
            (accepting [".png"], InputChange [2])]
           (initial three_files)).
  - reflexivity.
  - reflexivity.
  - repeat constructor.
Defined.



(** X18: the three drag handlers stop the event and prevent its default
    action before anything else, disabled or not, so the browser never
    opens a dropped file; [dropEffect] is assigned only while not
    disabled, [copy] on drag-over and [move] on drag-leave, and a drop
    never assigns it. *)
Theorem drag_handlers_prevent_default newRegExp props s e :
  has_drag_handler e = true →
  ∃ rest,
    (handle newRegExp props s e).2
    = stopPropagation :: preventDefault :: rest ∧
    List.filter is_set_dropEffect rest
    = if disabled props then []
      else match e with
           | DragOver => [set_dropEffect "copy"]
           | DragLeave => [set_dropEffect "move"]
           | _ => []
           end.
Proof.
  intros He.
  destruct e as [ | | | files | k | | | files]; try discriminate; simpl;
    destruct (disabled props); try (by eexists).
  unfold handleChange.
  destruct (validateFiles _ _ _ _) as [[?|?] ?]; by eexists.
Qed.

Lemma drag_handlers_prevent_default_witness :
  ∃ rest,
    (handle newRegExp_default (disabled_props [".png"] ".[0-9a-z]+$")
       (initial three_files) (Drop [1; 2])).2
    = stopPropagation :: preventDefault :: rest ∧
    List.filter is_set_dropEffect rest = [].
Proof.
  apply (drag_handlers_prevent_default newRegExp_default
           (disabled_props [".png"] ".[0-9a-z]+$") (initial three_files)
           (Drop [1; 2])).
  reflexivity.
Defined.

(** X19: a drop and a selection in the picker are validated alike. On
    props that are not disabled, dropping some files and receiving the
    same files in a change event of the input leave the same heap and
    hand the same list to [onAddFiles], or fail with the same exception;
    the event type only decides where the files are read from. *)
Theorem drop_like_change newRegExp props s files :
  disabled props = false →
  heap (handle newRegExp props s (Drop files)).1
  = heap (handle newRegExp props s (InputChange files)).1 ∧
  added (handle newRegExp props s (Drop files)).2
  = added (handle newRegExp props s (InputChange files)).2 ∧
  uncaughts (handle newRegExp props s (Drop files)).2
  = uncaughts (handle newRegExp props s (InputChange files)).2.
Proof.
  intros Hen. simpl. rewrite Hen. unfold handleChange. simpl.
  assert (validateFiles newRegExp props (drop_of files) (heap s)
          = validateFiles newRegExp props (change_of files) (heap s)) as ->
    by reflexivity.
  by destruct (validateFiles _ _ _ _) as [[?|?] ?].
Qed.

Lemma drop_like_change_witness :
  added (handle newRegExp_default (accepting [".png"]) (initial three_files)
           (Drop [1; 2])).2
  = added (handle newRegExp_default (accepting [".png"]) (initial three_files)
             (InputChange [1; 2])).2.
Proof.
  apply (drop_like_change newRegExp_default (accepting [".png"])
           (initial three_files) [1; 2]).
  reflexivity.
Defined.
